(** * Snowflake import plugin: the checkpointed batch-import job

    A shallow embedding of [index.ts]: the plugin's [setupPlugin],
    [teardownPlugin], [executeQuery], [importAndIngestEvents] and its table
    of row transformations, followed by the properties of the import job
    (offset bookkeeping, retry scheduling, termination, transformations).

    Conventions of the embedding.
    - A JavaScript [number] is an exact rational ([Q]).  Every sum, product
      and comparison the job performs on integers below 2^53 is exact on
      doubles as well; the one quotient ([offset / batchSize] in
      [setupPlugin]) is exact whenever the batch size divides the offset.
      [NaN] and the infinities are not represented: the numeric
      configuration fields hold the result of [Number(...)] on a numeric
      string, and the theorems that go through the quotient assume a
      non-zero batch size (and, where the value that teardown stores
      depends on it, a batch size that divides the offset).
    - [storage] (durable) and [cache] (Redis) are finite maps from keys to
      numbers; the plugin only ever writes numbers to them.
    - The effects of the plugin (cache, storage, scheduled jobs, captured
      events, queries sent, console output) are fields of a [World] that
      is threaded through a state-and-exception monad.
    - Console lines carry the values interpolated into the message rather
      than the rendered text. *)

From Stdlib Require Import ZArith QArith Qround Qpower Qabs Lia Ascii.
From stdpp Require Import gmap strings list pretty.

Set Warnings "-register-all".

Abbreviation number := Q (only parsing).

(** ** Values, rows and events *)

Inductive value : Type :=
  | VUndefined
  | VNull
  | VBool (b : bool)
  | VNum (q : number)
  | VStr (s : string)
  | VArr (l : list value)
  | VObj (o : gmap string value).

(** [Record<string, any>] as returned by the connector: columns in order. *)
Abbreviation Row := (list (string * value)) (only parsing).

(** [row[key]]: [undefined] when the column is absent. *)
Fixpoint row_get (row : Row) (key : string) : value :=
  match row with
  | [] => VUndefined
  | (k, v) :: rest => if String.eqb k key then v else row_get rest key
  end.

(** JavaScript truthiness of a value. *)
Definition truthy (v : value) : bool :=
  match v with
  | VUndefined | VNull => false
  | VBool b => b
  | VNum q => negb (Qeq_bool q 0)
  | VStr s => negb (String.eqb s "")
  | VArr _ | VObj _ => true
  end.

Record TransformedPluginEvent := {
  event : value;
  properties : gmap string value
}.

(** ** Completions: a normal result or a thrown [Error] *)

Abbreviation Error := string (only parsing).

Inductive Completion (A : Type) : Type :=
  | Normal (a : A)
  | Throws (e : Error).
Arguments Normal {A} a.
Arguments Throws {A} e.

(** ** Configuration, payload, queries *)

Inductive IMPORT_MECHANISMS := CONTINUOUS | HISTORICAL.

Definition IMPORT_MECHANISMS_eqb (a b : IMPORT_MECHANISMS) : bool :=
  match a, b with
  | CONTINUOUS, CONTINUOUS | HISTORICAL, HISTORICAL => true
  | _, _ => false
  end.

(** [configKeys] lists the keys present in the config object (what
    [option in config] tests); the numeric fields hold [Number(config.x)]. *)
Record Config := {
  configKeys : list string;
  table : string;
  orderBy : string;
  batchSize : number;
  frequency : number;
  transformationName : string;
  importMechanism : IMPORT_MECHANISMS
}.

Record Attachments := {
  rowToEventMap : option string;
  fieldConfigJson : option string;
  propertyConfigJson : option string
}.

Record ImportEventsJobPayload := {
  offset : option number;
  retriesPerformedSoFar : Z
}.

(** The two statements the plugin sends, by their interpolated parts, and
    the bound values. *)
Inductive SqlText :=
  | SelectCount (countColumnName tableIdentifier : string)
  | SelectBatch (tableIdentifier orderColumn : string) (limit : number).

Record Query := { sqlText : SqlText; binds : list number }.

Inductive ExecOutcome :=
  | Resolves (rows : option (list Row))
  | Rejects (err : Error).

Record ExecuteQueryResponse := {
  error : option Error;
  queryResult : option (list Row)
}.

Record Global := {
  initialOffset : number;
  totalRows : number
}.

Record Meta := {
  global : Global;
  config : Config;
  attachments : Attachments
}.

(** ** The world the plugin acts on *)

Inductive LogLine :=
  | LogSpinningUp
  | LogTotalRowsFound
  | ErrSkippedRows (from to : number)
  | LogDoneHistorical
  | LogRetrying (from to nextRetrySeconds : number) (err : option Error)
  | LogProcessed (from to : number) (ingested : nat).

(** [snowflake] is the data source seen through the connection pool: its
    answer to a statement may depend on the statements sent before. *)
Record World := {
  cache : gmap string number;
  storage : gmap string number;
  scheduled : list (ImportEventsJobPayload * number);
  captured : list (value * gmap string value);
  sent : list Query;
  console : list LogLine;
  snowflake : list Query -> Query -> ExecOutcome;
  poolCleared : bool
}.

Definition with_cache (f : gmap string number -> gmap string number) (w : World) : World :=
  {| cache := f (cache w); storage := storage w; scheduled := scheduled w;
     captured := captured w; sent := sent w; console := console w;
     snowflake := snowflake w; poolCleared := poolCleared w |}.

Definition with_storage (f : gmap string number -> gmap string number) (w : World) : World :=
  {| cache := cache w; storage := f (storage w); scheduled := scheduled w;
     captured := captured w; sent := sent w; console := console w;
     snowflake := snowflake w; poolCleared := poolCleared w |}.

Definition with_scheduled (j : ImportEventsJobPayload * number) (w : World) : World :=
  {| cache := cache w; storage := storage w; scheduled := scheduled w ++ [j];
     captured := captured w; sent := sent w; console := console w;
     snowflake := snowflake w; poolCleared := poolCleared w |}.

Definition with_captured (e : value * gmap string value) (w : World) : World :=
  {| cache := cache w; storage := storage w; scheduled := scheduled w;
     captured := captured w ++ [e]; sent := sent w; console := console w;
     snowflake := snowflake w; poolCleared := poolCleared w |}.

Definition with_sent (q : Query) (w : World) : World :=
  {| cache := cache w; storage := storage w; scheduled := scheduled w;
     captured := captured w; sent := sent w ++ [q]; console := console w;
     snowflake := snowflake w; poolCleared := poolCleared w |}.

Definition with_console (l : LogLine) (w : World) : World :=
  {| cache := cache w; storage := storage w; scheduled := scheduled w;
     captured := captured w; sent := sent w; console := console w ++ [l];
     snowflake := snowflake w; poolCleared := poolCleared w |}.

Definition with_poolCleared (w : World) : World :=
  {| cache := cache w; storage := storage w; scheduled := scheduled w;
     captured := captured w; sent := sent w; console := console w;
     snowflake := snowflake w; poolCleared := true |}.

(** ** The plugin monad: state passing with exceptions *)

Definition M (A : Type) : Type := World -> Completion A * World.

#[global] Instance M_ret : MRet M := fun A a w => (Normal a, w).

#[global] Instance M_bind : MBind M := fun A B k m w =>
  match m w with
  | (Normal a, w') => k a w'
  | (Throws e, w') => (Throws e, w')
  end.

Definition throw {A : Type} (e : Error) : M A := fun w => (Throws e, w).

Definition modify (f : World -> World) : M unit := fun w => (Normal tt, f w).

Definition gets {A : Type} (f : World -> A) : M A := fun w => (Normal (f w), w).

(** [cache.get(key, dflt)], [cache.set(key, v)], [cache.incr(key)].  The
    increment is the host's Redis counter: it adds one, starting from [0]
    when the key is absent. *)
Definition cache_get (key : string) (dflt : number) : M number :=
  gets (fun w => default dflt (cache w !! key)).

Definition cache_set (key : string) (v : number) : M unit :=
  modify (with_cache (insert key v)).

Definition cache_incr (key : string) : M unit :=
  modify (with_cache (fun c => <[key := (default 0%Q (c !! key) + 1)%Q]> c)).

(** [storage.get(key, null)] and [storage.set(key, v)]. *)
Definition storage_get (key : string) : M (option number) :=
  gets (fun w => storage w !! key).

Definition storage_set (key : string) (v : number) : M unit :=
  modify (with_storage (insert key v)).

(** [jobs.importAndIngestEvents(payload).runIn(seconds, 'seconds')]. *)
Definition runIn (payload : ImportEventsJobPayload) (seconds : number) : M unit :=
  modify (with_scheduled (payload, seconds)).

(** [posthog.capture(event, properties)]. *)
Definition capture (ev : value) (props : gmap string value) : M unit :=
  modify (with_captured (ev, props)).

Definition console_log (l : LogLine) : M unit := modify (with_console l).

(** [client.execute({sqlText, binds})]: the statement is sent and the data
    source answers; a rejected promise is returned as [Rejects], to be
    caught by [executeQuery]. *)
Definition client_execute (q : Query) : M ExecOutcome :=
  fun w => (Normal (snowflake w (sent w) q), with_sent q w).

(** ** Host functions

    Built-ins of the JavaScript runtime that the transformations call, and
    the part of the 'Cleaned-Up Properties' transformation that formats
    dates in the local time zone of the process.
    - [JSON_parse v] is [JSON.parse(v)], [None] when it throws a
      [SyntaxError];
    - [ToPropertyKey v] is the property key [v] denotes in [o[v]];
    - [ToNumber v] is [Number(v)];
    - [formatDateToIsoString v] is the plugin's function of that name,
      [None] when [v] is not a [Date] and the call throws;
    - [cleanedUpEvent cfg row] is the body of the 'Cleaned-Up Properties'
      transformation after its configuration document has been parsed. *)
Class Host := {
  JSON_parse : value -> option value;
  ToPropertyKey : value -> string;
  ToNumber : value -> number;
  formatDateToIsoString : value -> option string;
  cleanedUpEvent : value -> Row -> Completion TransformedPluginEvent
}.

(** ** Identifiers *)

(** The double-quote character. *)
Definition dquote : ascii := ascii_of_nat 34.

Definition REDIS_OFFSET_KEY : string := "import_offset".
Definition REDIS_TOTAL_ROWS_KEY : string := "total_rows_snapshot".

(** A character of the class [[\w\d_]]: a letter, a digit or an underscore. *)
Definition is_word_char (a : ascii) : bool :=
  let n := nat_of_ascii a in
  ((48 <=? n) && (n <=? 57)) || ((65 <=? n) && (n <=? 90))
  || (n =? 95) || ((97 <=? n) && (n <=? 122)).

(** [text.replace(/[^\w\d_]+/g, '')]. *)
Fixpoint sanitizeSql (text : string) : string :=
  match text with
  | EmptyString => EmptyString
  | String a rest =>
      if is_word_char a then String a (sanitizeSql rest) else sanitizeSql rest
  end.

Definition sanitizeSqlIdentifier (unquotedIdentifier : string) : string :=
  "identifier('" +:+ sanitizeSql unquotedIdentifier +:+ "')".

(** ** executeQuery *)

(** What [executeQuery] returns for an outcome of [client.execute]: the
    rows of a resolved promise, or the error caught from a rejected one. *)
Definition response_of (r : ExecOutcome) : ExecuteQueryResponse :=
  match r with
  | Resolves rows => {| error := None; queryResult := rows |}
  | Rejects err => {| error := Some err; queryResult := None |}
  end.

Definition executeQuery (query : SqlText) (values : list number) : M ExecuteQueryResponse :=
  r ← client_execute {| sqlText := query; binds := values |};
  mret (response_of r).

(** ** Transformations *)

Record Transformation := {
  author : string;
  transform : Row -> Attachments -> Completion TransformedPluginEvent
}.

(** [{ ...o, ...v }]: the own enumerable properties of [v] written over [o].
    Arrays and strings spread by index; [null], [undefined], numbers and
    booleans contribute nothing. *)
Definition spread (v : value) (o : gmap string value) : gmap string value :=
  match v with
  | VObj p => p ∪ o
  | VArr l => list_to_map (imap (fun i x => (pretty i, x)) l) ∪ o
  | VStr s =>
      list_to_map (imap (fun i a => (pretty i, VStr (String a EmptyString)))
                        (String.list_ascii_of_string s)) ∪ o
  | _ => o
  end.

(** [o[key]] for reading: own properties of objects, indices and [length]
    of arrays and strings; reading a property of [null] or [undefined]
    throws.  Inherited (prototype) properties are not modelled. *)
Definition get_prop (o : value) (key : string) : Completion value :=
  match o with
  | VUndefined | VNull => Throws "TypeError"
  | VObj p => Normal (default VUndefined (p !! key))
  | VArr l =>
      if String.eqb key "length" then Normal (VNum (inject_Z (Z.of_nat (length l))))
      else Normal (default VUndefined
                     (list_to_map (M := gmap string value)
                        (imap (fun i x => (pretty i, x)) l) !! key))
  | VStr s =>
      if String.eqb key "length"
      then Normal (VNum (inject_Z (Z.of_nat (String.length s))))
      else Normal (default VUndefined
                     (list_to_map (M := gmap string value)
                        (imap (fun i a => (pretty i, VStr (String a EmptyString)))
                              (String.list_ascii_of_string s)) !! key))
  | VBool _ | VNum _ => Normal VUndefined
  end.

Definition is_string (v : value) (s : string) : bool :=
  match v with
  | VStr s' => String.eqb s' s
  | _ => false
  end.

Section Transformations.
Context `{Host}.

Definition transform_default (row : Row) : Completion TransformedPluginEvent :=
  let timestamp := row_get row "timestamp" in
  let distinct_id := row_get row "distinct_id" in
  let event := row_get row "event" in
  let properties := row_get row "properties" in
  match JSON_parse properties with
  | None => Throws "SyntaxError"
  | Some parsed =>
      Normal {| event := event;
                properties :=
                  <["source" := VStr "snowflake_import"]>
                    (spread parsed
                       (<["distinct_id" := distinct_id]>
                          (<["timestamp" := timestamp]> ∅))) |}
  end.

(** The loop over [Object.entries(row)] of the 'JSON Map' transformation. *)
Fixpoint jsonMap_entries (rowToEventMap : value) (entries : Row)
    (eventToIngest : TransformedPluginEvent) : Completion TransformedPluginEvent :=
  match entries with
  | [] => Normal eventToIngest
  | (colName, colValue) :: rest =>
      match get_prop rowToEventMap colName with
      | Throws e => Throws e
      | Normal target =>
          if negb (truthy target) then
            jsonMap_entries rowToEventMap rest eventToIngest
          else if is_string target "event" then
            jsonMap_entries rowToEventMap rest
              {| event := colValue; properties := properties eventToIngest |}
          else
            jsonMap_entries rowToEventMap rest
              {| event := event eventToIngest;
                 properties := <[ToPropertyKey target := colValue]> (properties eventToIngest) |}
      end
  end.

Definition transform_JSON_Map (row : Row) (att : Attachments) : Completion TransformedPluginEvent :=
  match rowToEventMap att with
  | None => Throws "Row to event mapping JSON file not provided!"
  | Some contents =>
      match JSON_parse (VStr contents) with
      | None => Throws "Row to event mapping JSON file contains invalid JSON!"
      | Some map =>
          jsonMap_entries map row {| event := VStr ""; properties := ∅ |}
      end
  end.

Definition transform_passthrough (row : Row) : Completion TransformedPluginEvent :=
  let unformattedTimestamp := row_get row "COMPLETED_AT_ET" in
  match formatDateToIsoString unformattedTimestamp with
  | None => Throws "TypeError"
  | Some _ => Normal {| event := VStr "test_event"; properties := list_to_map row |}
  end.

Definition transform_Cleaned_Up_Properties (row : Row) (att : Attachments)
    : Completion TransformedPluginEvent :=
  match propertyConfigJson att with
  | None => Throws "Configuration JSON file not provided!"
  | Some contents =>
      match JSON_parse (VStr contents) with
      | None => Throws "Invalid JSON was provided!"
      | Some transformationConfig => cleanedUpEvent transformationConfig row
      end
  end.

(** The [transformations] table, keyed by name. *)
Definition transformations (name : string) : option Transformation :=
  if String.eqb name "default" then
    Some {| author := "yakkomajuri"; transform := fun row _ => transform_default row |}
  else if String.eqb name "JSON Map" then
    Some {| author := "yakkomajuri"; transform := transform_JSON_Map |}
  else if String.eqb name "passthrough" then
    Some {| author := "tacastillo"; transform := fun row _ => transform_passthrough row |}
  else if String.eqb name "Cleaned-Up Properties" then
    Some {| author := "tacastillo"; transform := transform_Cleaned_Up_Properties |}
  else None.

(** [await transformations[name].transform(row, meta)]. *)
Definition apply_transformation (name : string) (row : Row) (att : Attachments)
    : M TransformedPluginEvent :=
  match transformations name with
  | None => throw "TypeError"
  | Some t =>
      match transform t row att with
      | Normal e => mret e
      | Throws err => throw err
      end
  end.

End Transformations.

(** ** The job, setup and teardown *)

(** The return point an invocation of the job leaves through: the early
    return of the abandonment test, the early return of the historical
    test, or the end of the function body. *)
Inductive Exit := ABANDONED | TERMINATED | FINISHED.

(** [payload.offset] when it is truthy: present and not [0]. *)
Definition truthy_offset (payload : ImportEventsJobPayload) : option number :=
  match offset payload with
  | Some o => if Qeq_bool o 0 then None else Some o
  | None => None
  end.

(** [!queryResponse || queryResponse.error || !queryResponse.queryResult]. *)
Definition query_failed (queryResponse : ExecuteQueryResponse) : bool :=
  match error queryResponse, queryResult queryResponse with
  | None, Some _ => false
  | _, _ => true
  end.

(** The text of [queryResponse.error] inside a template string: [null]
    when there is no error, and for a caught [Error] its name and its
    message (the name alone when the message is empty).  The embedding
    keeps the message of an error, and prints the default name [Error]. *)
Definition error_text (e : option Error) : string :=
  match e with
  | None => "null"
  | Some message =>
      if String.eqb message "" then "Error" else "Error: " +:+ message
  end.

Definition requiredConfigOptions : list string :=
  ["account"; "username"; "password"; "role"; "database"; "schema"; "table";
   "orderBy"; "warehouse"; "batchSize"; "frequency"].

Section Plugin.
Context `{Host}.

Definition importAndIngestEvents (payload : ImportEventsJobPayload) (meta : Meta) : M Exit :=
  let batchSize := batchSize (config meta) in
  match truthy_offset payload, (15 <=? retriesPerformedSoFar payload)%Z with
  | Some o, true =>
      console_log (ErrSkippedRows o (o + batchSize)%Q);;
      mret ABANDONED
  | _, _ =>
      off ← match truthy_offset payload with
            | Some o => mret o
            | None =>
                redisIncrementedOffset ← cache_get REDIS_OFFSET_KEY 0%Q;
                mret (initialOffset (global meta) + redisIncrementedOffset * batchSize)%Q
            end;
      if IMPORT_MECHANISMS_eqb (importMechanism (config meta)) HISTORICAL
         && negb (Qle_bool off (totalRows (global meta)))
      then
        console_log LogDoneHistorical;;
        mret TERMINATED
      else
        queryResponse ← executeQuery
          (SelectBatch (sanitizeSqlIdentifier (table (config meta)))
                       (sanitizeSql (orderBy (config meta))) batchSize)
          [off];
        (if query_failed queryResponse then
           let nextRetrySeconds := (2 ^ retriesPerformedSoFar payload * 3)%Q in
           console_log (LogRetrying off (off + batchSize)%Q nextRetrySeconds
                                    (error queryResponse));;
           runIn {| offset := offset payload;
                    retriesPerformedSoFar := retriesPerformedSoFar payload + 1 |}
                 nextRetrySeconds
         else mret tt);;
        eventsToIngest ← match queryResult queryResponse with
                         | Some rows =>
                             mapM (fun row =>
                                     apply_transformation
                                       (transformationName (config meta)) row
                                       (attachments meta)) rows
                         | None => mret []
                         end;
        mapM (fun e => capture (event e) (properties e)) eventsToIngest;;
        console_log (LogProcessed off (off + batchSize)%Q (length eventsToIngest));;
        cache_incr REDIS_OFFSET_KEY;;
        runIn {| offset := None; retriesPerformedSoFar := 0 |}
              (frequency (config meta));;
        mret FINISHED
  end.

(** The offset restored at startup (the lines of [setupPlugin] under
    "used for picking up where we left off after a restart"): read from
    [storage] with default [0], kept as [global.initialOffset], and the
    cache counter is set to it divided by the batch size. *)
Definition loadInitialOffset (config : Config) : M number :=
  stored ← storage_get REDIS_OFFSET_KEY;
  let offset := default 0%Q stored in
  cache_set REDIS_OFFSET_KEY (offset / batchSize config)%Q;;
  mret offset.

Definition setupPlugin (config : Config) : M Global :=
  match List.find (fun option => negb (existsb (String.eqb option) (configKeys config)))
                  requiredConfigOptions with
  | Some option => throw ("Required config option " +:+ option +:+ " is missing!")
  | None =>
      console_log LogSpinningUp;;
      let countColumnName := "ROW_COUNT" in
      totalRowsResult ← executeQuery
        (SelectCount countColumnName (sanitizeSqlIdentifier (table config))) [];
      if query_failed totalRowsResult then
        throw ("Query failed because: " +:+ error_text (error totalRowsResult))
      else
        console_log LogTotalRowsFound;;
        match default [] (queryResult totalRowsResult) with
        | [] => throw "TypeError"
        | row0 :: _ =>
            let rowCount := ToNumber (row_get row0 countColumnName) in
            totalRows ←
              (if IMPORT_MECHANISMS_eqb (importMechanism config) HISTORICAL then
                 totalRowsSnapshot ← storage_get REDIS_TOTAL_ROWS_KEY;
                 match totalRowsSnapshot with
                 | Some n =>
                     if Qeq_bool n 0 then
                       storage_set REDIS_TOTAL_ROWS_KEY rowCount;; mret rowCount
                     else mret n
                 | None =>
                     storage_set REDIS_TOTAL_ROWS_KEY rowCount;; mret rowCount
                 end
               else mret rowCount);
            offset ← loadInitialOffset config;
            if Qeq_bool (frequency config) 0 then
              throw "Invalid frequency input! Please insert a number in seconds."
            else
              runIn {| offset := None; retriesPerformedSoFar := 0 |} (frequency config);;
              mret {| initialOffset := offset; totalRows := totalRows |}
        end
  end.

Definition teardownPlugin (meta : Meta) : M unit :=
  redisOffset ← cache_get REDIS_OFFSET_KEY 0%Q;
  let workerOffset := (redisOffset * batchSize (config meta))%Q in
  let offsetToStore :=
    if negb (Qle_bool workerOffset (totalRows (global meta)))
    then totalRows (global meta) else workerOffset in
  storage_set REDIS_OFFSET_KEY offsetToStore;;
  modify with_poolCleared.

End Plugin.

(** ** A reference host

    An executable instance of [Host], used to run the plugin on concrete
    inputs.  [parse] reads the fragment of JSON made of objects, arrays,
    strings without escape sequences, integers, [true], [false] and [null];
    values of the embedding carry no [Date], so the date formatter throws on
    every argument, and with it the body of 'Cleaned-Up Properties'. *)
Module RefHost.

Definition is_ws (a : ascii) : bool :=
  let n := nat_of_ascii a in (n =? 32) || (n =? 9) || (n =? 10) || (n =? 13).

Definition is_digit (a : ascii) : bool :=
  let n := nat_of_ascii a in (48 <=? n) && (n <=? 57).

Fixpoint skip_ws (s : string) : string :=
  match s with
  | String a rest => if is_ws a then skip_ws rest else s
  | EmptyString => s
  end.

(** Digits read so far as [acc]; returns the number and the rest. *)
Fixpoint digits (s : string) (acc : Z) : Z * string :=
  match s with
  | String a rest =>
      if is_digit a then digits rest (10 * acc + (Z.of_nat (nat_of_ascii a) - 48))%Z
      else (acc, s)
  | EmptyString => (acc, s)
  end.

Definition starts_with_digit (s : string) : bool :=
  match s with
  | String a _ => is_digit a
  | EmptyString => false
  end.

(** An unsigned integer literal: no leading zero before another digit. *)
Definition integer (s : string) : option (Z * string) :=
  match s with
  | String "0" rest => if starts_with_digit rest then None else Some (0%Z, rest)
  | _ => if starts_with_digit s then Some (digits s 0) else None
  end.

(** The characters up to the closing quote. *)
Fixpoint string_body (s : string) : option (string * string) :=
  match s with
  | EmptyString => None
  | String a rest =>
      if Ascii.eqb a dquote then Some (EmptyString, rest)
      else if (nat_of_ascii a =? 92) || (nat_of_ascii a <? 32) then None
      else '(body, rest') ← string_body rest; Some (String a body, rest')
  end.

Definition literal (lit : string) (v : value) (s : string) : option (value * string) :=
  if String.prefix lit s
  then Some (v, String.substring (String.length lit)
                                 (String.length s - String.length lit) s)
  else None.

Fixpoint parse_value (fuel : nat) (s : string) : option (value * string) :=
  match fuel with
  | O => None
  | S fuel' =>
      match skip_ws s with
      | EmptyString => None
      | String a rest as s' =>
          if Ascii.eqb a "{" then
            match skip_ws rest with
            | String "}" rest' => Some (VObj ∅, rest')
            | _ => parse_members fuel' rest ∅
            end
          else if Ascii.eqb a "[" then
            match skip_ws rest with
            | String "]" rest' => Some (VArr [], rest')
            | _ => parse_elements fuel' rest []
            end
          else if Ascii.eqb a dquote then
            '(str, rest') ← string_body rest; Some (VStr str, rest')
          else if Ascii.eqb a "-" then
            '(n, rest') ← integer rest; Some (VNum (inject_Z (- n)), rest')
          else if Ascii.eqb a "t" then literal "true" (VBool true) s'
          else if Ascii.eqb a "f" then literal "false" (VBool false) s'
          else if Ascii.eqb a "n" then literal "null" VNull s'
          else '(n, rest') ← integer s'; Some (VNum (inject_Z n), rest')
      end
  end
with parse_members (fuel : nat) (s : string) (acc : gmap string value)
    : option (value * string) :=
  match fuel with
  | O => None
  | S fuel' =>
      match skip_ws s with
      | EmptyString => None
      | String a rest =>
          if Ascii.eqb a dquote then
            '(key, rest1) ← string_body rest;
            match skip_ws rest1 with
            | String ":" rest2 =>
                '(v, rest3) ← parse_value fuel' rest2;
                match skip_ws rest3 with
                | String "," rest4 => parse_members fuel' rest4 (<[key := v]> acc)
                | String "}" rest4 => Some (VObj (<[key := v]> acc), rest4)
                | _ => None
                end
            | _ => None
            end
          else None
      end
  end
with parse_elements (fuel : nat) (s : string) (acc : list value)
    : option (value * string) :=
  match fuel with
  | O => None
  | S fuel' =>
      '(v, rest) ← parse_value fuel' s;
      match skip_ws rest with
      | String "," rest' => parse_elements fuel' rest' (acc ++ [v])
      | String "]" rest' => Some (VArr (acc ++ [v]), rest')
      | _ => None
      end
  end.

(** A whole text: one value, then only white space. *)
Definition parse (s : string) : option value :=
  '(v, rest) ← parse_value (S (String.length s)) s;
  match skip_ws rest with
  | EmptyString => Some v
  | _ => None
  end.

(** [JSON.parse(v)]: the argument is first converted to a string.  A
    number, a boolean and [null] print as JSON and read back as
    themselves; [undefined] and objects print as text that is not JSON;
    an array prints its elements separated by commas. *)
Fixpoint JSON_parse_ref (v : value) : option value :=
  match v with
  | VStr s => parse s
  | VNum q => Some (VNum q)
  | VBool b => Some (VBool b)
  | VNull => Some VNull
  | VUndefined | VObj _ => None
  | VArr [x] =>
      match x with
      | VNull | VUndefined => None
      | _ => JSON_parse_ref x
      end
  | VArr _ => None
  end.

(** [String(v)] as a property key.  Exact on strings, booleans, [null],
    [undefined], objects and integers of magnitude below 10^21; other
    numbers are written as a fraction where the runtime prints decimals. *)
Fixpoint ToPropertyKey_ref (v : value) : string :=
  match v with
  | VStr s => s
  | VBool true => "true"
  | VBool false => "false"
  | VNull => "null"
  | VUndefined => "undefined"
  | VNum q =>
      let r := Qred q in
      if (Z.pos (Qden r) =? 1)%Z then pretty (Qnum r)
      else pretty (Qnum r) +:+ "/" +:+ pretty (Z.pos (Qden r))
  | VObj _ => "[object Object]"
  | VArr l =>
      (fix join (l : list value) : string :=
         match l with
         | [] => ""
         | [x] => match x with VNull | VUndefined => "" | _ => ToPropertyKey_ref x end
         | x :: rest =>
             match x with VNull | VUndefined => "" | _ => ToPropertyKey_ref x end
             +:+ "," +:+ join rest
         end) l
  end.

(** [Number(v)] on numbers, booleans, [null] and unsigned integer
    strings; the remaining arguments give [NaN] in the runtime, which
    the number model does not hold, and [0] here. *)
Definition ToNumber_ref (v : value) : number :=
  match v with
  | VNum q => q
  | VBool true => 1%Q
  | VStr s =>
      match integer s with
      | Some (n, EmptyString) => inject_Z n
      | _ => 0%Q
      end
  | _ => 0%Q
  end.

#[global] Instance host : Host := {|
  JSON_parse := JSON_parse_ref;
  ToPropertyKey := ToPropertyKey_ref;
  ToNumber := ToNumber_ref;
  formatDateToIsoString := fun _ => None;
  cleanedUpEvent := fun _ _ => Throws "TypeError"
|}.

End RefHost.


(** ** Vocabulary of the properties *)

(** The payload of a newly started batch: what [setupPlugin] and a run
    that reaches its end schedule. *)
Definition fresh : ImportEventsJobPayload :=
  {| offset := None; retriesPerformedSoFar := 0 |}.

(** The payload a failed fetch reschedules: [{...payload,
    retriesPerformedSoFar: payload.retriesPerformedSoFar + 1}]. *)
Definition retry_of (p : ImportEventsJobPayload) : ImportEventsJobPayload :=
  {| offset := offset p; retriesPerformedSoFar := retriesPerformedSoFar p + 1 |}.

(** The abandonment test of the job. *)
Definition abandons (p : ImportEventsJobPayload) : bool :=
  match truthy_offset p with
  | Some _ => (15 <=? retriesPerformedSoFar p)%Z
  | None => false
  end.

(** The ephemeral counter: [cache.get('import_offset', 0)]. *)
Definition counter (w : World) : number := default 0%Q (cache w !! REDIS_OFFSET_KEY).

(** [global.initialOffset + counter * batchSize]. *)
Definition effectiveOffset (meta : Meta) (w : World) : number :=
  (initialOffset (global meta) + counter w * batchSize (config meta))%Q.

(** The offset a run works at. *)
Definition job_offset (p : ImportEventsJobPayload) (meta : Meta) (w : World) : number :=
  match truthy_offset p with
  | Some o => o
  | None => effectiveOffset meta w
  end.

(** The historical test of the job at offset [off]. *)
Definition historical_done (meta : Meta) (off : number) : bool :=
  IMPORT_MECHANISMS_eqb (importMechanism (config meta)) HISTORICAL
  && negb (Qle_bool off (totalRows (global meta))).

(** The batch statement for offset [off] and the response to it in [w]. *)
Definition batch_query (meta : Meta) (off : number) : Query :=
  {| sqlText := SelectBatch (sanitizeSqlIdentifier (table (config meta)))
                            (sanitizeSql (orderBy (config meta)))
                            (batchSize (config meta));
     binds := [off] |}.

Definition fetch (meta : Meta) (w : World) (off : number) : ExecuteQueryResponse :=
  response_of (snowflake w (sent w) (batch_query meta off)).

(** The transformation of one row and of a batch, without the monad. *)
Definition transform_row `{Host} (name : string) (att : Attachments) (row : Row)
    : Completion TransformedPluginEvent :=
  match transformations name with
  | None => Throws "TypeError"
  | Some t => transform t row att
  end.

Fixpoint transform_rows `{Host} (name : string) (att : Attachments) (rows : list Row)
    : Completion (list TransformedPluginEvent) :=
  match rows with
  | [] => Normal []
  | row :: rest =>
      match transform_row name att row with
      | Throws e => Throws e
      | Normal ev =>
          match transform_rows name att rest with
          | Throws e => Throws e
          | Normal evs => Normal (ev :: evs)
          end
      end
  end.

Definition capture_all (evs : list TransformedPluginEvent) (w : World) : World :=
  foldl (fun w e => with_captured (event e, properties e) w) w evs.

(** The world a run leaves when it reaches the fetch at offset [off]. *)
Definition after_fetch (p : ImportEventsJobPayload) (meta : Meta) (w : World)
    (off : number) : World :=
  let w1 := with_sent (batch_query meta off) w in
  if query_failed (fetch meta w off) then
    let nextRetrySeconds := (2 ^ retriesPerformedSoFar p * 3)%Q in
    with_scheduled (retry_of p, nextRetrySeconds)
      (with_console (LogRetrying off (off + batchSize (config meta))%Q nextRetrySeconds
                                 (error (fetch meta w off))) w1)
  else w1.

(** The world a run leaves when it reaches its end with events [evs]. *)
Definition after_ingest (meta : Meta) (off : number)
    (evs : list TransformedPluginEvent) (w : World) : World :=
  with_scheduled (fresh, frequency (config meta))
    (with_cache (fun c => <[REDIS_OFFSET_KEY := (default 0%Q (c !! REDIS_OFFSET_KEY) + 1)%Q]> c)
       (with_console (LogProcessed off (off + batchSize (config meta))%Q (length evs))
          (capture_all evs w))).

(** The bound offset of the last statement sent, as seen by the source. *)
Definition last_offset_sent (w : World) : option number :=
  q ← last (sent w); head (binds q).

(** [n] consecutive newly started batches, each of which fetches
    successfully and reaches its end: the offsets the data source saw, in
    order, and the world left behind.  [None] when one of the [n] runs
    abandons, terminates, fails its fetch or throws. *)
Fixpoint fresh_batches `{Host} (n : nat) (meta : Meta) (w : World)
    : option (list number * World) :=
  match n with
  | O => Some ([], w)
  | S n' =>
      if query_failed (fetch meta w (job_offset fresh meta w)) then None
      else
        match importAndIngestEvents fresh meta w with
        | (Normal FINISHED, w') =>
            off ← last_offset_sent w';
            '(offs, w'') ← fresh_batches n' meta w';
            Some (off :: offs, w'')
        | _ => None
        end
  end.

(** The transformation [name] requires an attachment that [att] lacks; [e]
    is the message of the error the transformation then throws. *)
Definition missing_attachment (name : string) (att : Attachments) (e : Error) : Prop :=
  (name = "JSON Map" /\ rowToEventMap att = None
   /\ e = "Row to event mapping JSON file not provided!")
  \/ (name = "Cleaned-Up Properties" /\ propertyConfigJson att = None
      /\ e = "Configuration JSON file not provided!").

(** ** Concrete inputs *)

Module Examples.

(** The JSON text of the object [{a: 1}]: an opening brace, the key [a]
    between double quotes, a colon, the digit 1 and a closing brace. *)
Definition a1_json : string := "{" +:+ String dquote "a" +:+ String dquote ":1}".

(** The row of the default-transformation scenario. *)
Definition click_row : Row :=
  [("event", VStr "click"); ("timestamp", VStr "2023-01-01");
   ("distinct_id", VStr "u1"); ("properties", VStr a1_json)].

Definition click_event : TransformedPluginEvent :=
  {| event := VStr "click";
     properties :=
       list_to_map
         [("timestamp", VStr "2023-01-01"); ("distinct_id", VStr "u1");
          ("a", VNum 1); ("source", VStr "snowflake_import")] |}.

Definition example_config (size : number) (name : string)
    (mechanism : IMPORT_MECHANISMS) : Config :=
  {| configKeys := requiredConfigOptions ++ ["transformationName"; "importMechanism"];
     table := "posthog_event";
     orderBy := "inserted_on";
     batchSize := size;
     frequency := 60;
     transformationName := name;
     importMechanism := mechanism |}.

Definition no_attachments : Attachments :=
  {| rowToEventMap := None; fieldConfigJson := None; propertyConfigJson := None |}.

Definition example_meta (initial total size : number) (name : string)
    (mechanism : IMPORT_MECHANISMS) : Meta :=
  {| global := {| initialOffset := initial; totalRows := total |};
     config := example_config size name mechanism;
     attachments := no_attachments |}.

(** A data source holding [rows]: it counts them, and serves the window
    of a batch statement from its bound offset and its limit. *)
Definition serving (rows : list Row) : list Query -> Query -> ExecOutcome :=
  fun _ q =>
    match sqlText q, binds q with
    | SelectCount column _, _ =>
        Resolves (Some [[(column, VNum (inject_Z (Z.of_nat (length rows))))]])
    | SelectBatch _ _ limit, [off] =>
        Resolves (Some (take (Z.to_nat (Qfloor limit))
                             (drop (Z.to_nat (Qfloor off)) rows)))
    | SelectBatch _ _ _, _ => Rejects "SQL compilation error"
    end.

(** A data source that cannot be reached. *)
Definition unreachable : list Query -> Query -> ExecOutcome :=
  fun _ _ => Rejects "Network error".

Definition world (source : list Query -> Query -> ExecOutcome)
    (stored : gmap string number) (cached : gmap string number) : World :=
  {| cache := cached; storage := stored; scheduled := []; captured := [];
     sent := []; console := []; snowflake := source; poolCleared := false |}.

Definition thirty_rows : list Row := replicate 30 click_row.

End Examples.

(** ** Date formatting and title case

    The two string helpers of the plugin that the 'passthrough' and
    'Cleaned-Up Properties' transformations call. *)

Module DateFormat.

(** A valid [Date] as the getters of the plugin see it: the local-time
    fields and the offset of the local time zone in minutes, all integers. *)
Record Date := {
  getTimezoneOffset : Z;
  getFullYear : Z;
  getMonth : Z;
  getDate : Z;
  getHours : Z;
  getMinutes : Z;
  getSeconds : Z
}.

(** [Math.floor(Math.abs(num))]. *)
Definition norm (num : number) : Z := Qfloor (Qabs num).

(** [pad]: [(norm < 10 ? '0' : '') + norm]. *)
Definition pad (num : number) : string :=
  (if (norm num <? 10)%Z then "0" else "") +:+ pretty (norm num).

Definition formatDateToIsoString (date : Date) : string :=
  let tzo := (- getTimezoneOffset date)%Z in
  let dif := if (0 <=? tzo)%Z then "+" else "-" in
  pretty (getFullYear date)
  +:+ "-" +:+ pad (inject_Z (getMonth date + 1))
  +:+ "-" +:+ pad (inject_Z (getDate date))
  +:+ "T" +:+ pad (inject_Z (getHours date))
  +:+ ":" +:+ pad (inject_Z (getMinutes date))
  +:+ ":" +:+ pad (inject_Z (getSeconds date))
  +:+ dif +:+ pad (inject_Z tzo / 60)%Q
  +:+ ":" +:+ pad (inject_Z (Z.rem tzo 60)).

(** The fields of a date of the years 1000 to 9999, in their ranges. *)
Definition in_range (date : Date) : Prop :=
  (1000 <= getFullYear date <= 9999)%Z /\ (0 <= getMonth date <= 11)%Z
  /\ (1 <= getDate date <= 31)%Z /\ (0 <= getHours date <= 23)%Z
  /\ (0 <= getMinutes date <= 59)%Z /\ (0 <= getSeconds date <= 59)%Z
  /\ (-1439 <= getTimezoneOffset date <= 1439)%Z.

(** Two decimal digits. *)
Definition two_digits (n : Z) : string :=
  String (ascii_of_nat (48 + Z.to_nat (n / 10))) (String (ascii_of_nat (48 + Z.to_nat (n mod 10))) "").

End DateFormat.

(** White space among the ASCII characters (the complement of [\S]). *)
Definition is_space (a : ascii) : bool :=
  let n := nat_of_ascii a in ((9 <=? n) && (n <=? 13)) || (n =? 32).

(** [toUpperCase] and [toLowerCase] on one ASCII character. *)
Definition toUpperCase (a : ascii) : ascii :=
  let n := nat_of_ascii a in
  if (97 <=? n) && (n <=? 122) then ascii_of_nat (n - 32) else a.

Definition toLowerCase (a : ascii) : ascii :=
  let n := nat_of_ascii a in
  if (65 <=? n) && (n <=? 90) then ascii_of_nat (n + 32) else a.

(** [str.replace(/\w\S*/g, txt => txt.charAt(0).toUpperCase() +
    txt.substr(1).toLowerCase())] on ASCII text.  [inside] tells whether the
    scan is within a match: a match starts at a word character and runs
    up to the next white space. *)
Fixpoint titleCase_from (inside : bool) (str : string) : string :=
  match str with
  | EmptyString => EmptyString
  | String a rest =>
      if inside then
        if is_space a then String a (titleCase_from false rest)
        else String (toLowerCase a) (titleCase_from true rest)
      else if is_word_char a then String (toUpperCase a) (titleCase_from true rest)
      else String a (titleCase_from false rest)
  end.

Definition toTitleCase (str : string) : string := titleCase_from false str.

(** Text of ASCII characters only. *)
Fixpoint is_ascii (str : string) : bool :=
  match str with
  | EmptyString => true
  | String a rest => (nat_of_ascii a <? 128) && is_ascii rest
  end.

(** ** Further vocabulary *)

(** Every character of [str] satisfies [f]. *)
Fixpoint all_chars (f : ascii -> bool) (str : string) : bool :=
  match str with
  | EmptyString => true
  | String a rest => f a && all_chars f rest
  end.

(** The number of single quotes in [str]. *)
Fixpoint count_quotes (str : string) : nat :=
  match str with
  | EmptyString => 0
  | String a rest => (if (nat_of_ascii a =? 39) then 1 else 0) + count_quotes rest
  end.

(** Every required option is a key of the config object. *)
Definition config_complete (cfg : Config) : bool :=
  forallb (fun option => existsb (String.eqb option) (configKeys cfg)) requiredConfigOptions.

(** The count statement of [setupPlugin] and the response to it in [w]. *)
Definition count_query (cfg : Config) : Query :=
  {| sqlText := SelectCount "ROW_COUNT" (sanitizeSqlIdentifier (table cfg)); binds := [] |}.

Definition count_response (cfg : Config) (w : World) : ExecuteQueryResponse :=
  response_of (snowflake w (sent w) (count_query cfg)).

(** The stored snapshot of the row count when it is truthy: present and
    not [0]. *)
Definition stored_snapshot (w : World) : option number :=
  match storage w !! REDIS_TOTAL_ROWS_KEY with
  | Some n => if Qeq_bool n 0 then None else Some n
  | None => None
  end.

(** The row count read from the first row of a count response. *)
Definition counted `{Host} (row0 : Row) : number := ToNumber (row_get row0 "ROW_COUNT").

(** The property names every object inherits from [Object.prototype]. *)
Definition object_prototype_properties : list string :=
  ["constructor"; "hasOwnProperty"; "isPrototypeOf"; "propertyIsEnumerable";
   "toLocaleString"; "toString"; "valueOf"; "__proto__"; "__defineGetter__";
   "__defineSetter__"; "__lookupGetter__"; "__lookupSetter__"].

(** No column of [row] is named like an inherited property: on such rows
    reading [map[colName]] is a lookup among the own properties of [map]. *)
Definition plain_columns (row : Row) : bool :=
  forallb (fun cv => negb (existsb (String.eqb (fst cv)) object_prototype_properties)) row.

(** No value of the mapping object [m] denotes the key [__proto__]: then
    writing [properties[map[colName]]] adds or replaces an own property. *)
Definition plain_targets `{Host} (m : gmap string value) : bool :=
  forallb (fun ct => negb (String.eqb (ToPropertyKey (snd ct)) "__proto__")) (map_to_list m).

(** The payload after [n] failed attempts in a row, starting from a newly
    started batch. *)
Definition nth_retry (n : nat) : ImportEventsJobPayload := Nat.iter n retry_of fresh.

(** Further concrete inputs. *)
Module MoreExamples.

(** A config object with three of the required options only. *)
Definition incomplete_config : Config :=
  {| configKeys := ["account"; "username"; "password"];
     table := "posthog_event"; orderBy := "inserted_on";
     batchSize := 10; frequency := 60;
     transformationName := "default"; importMechanism := CONTINUOUS |}.

(** A config whose frequency reads as [0]. *)
Definition zero_frequency_config : Config :=
  {| configKeys := requiredConfigOptions;
     table := "posthog_event"; orderBy := "inserted_on";
     batchSize := 10; frequency := 0;
     transformationName := "default"; importMechanism := CONTINUOUS |}.

(** [s] between double quotes. *)
Definition quoted (s : string) : string := String dquote (s +:+ String dquote "").

(** A mapping document: the object that maps [col_a] to [event] and
    [col_b] to [distinct_id], as JSON text. *)
Definition mapping_json : string :=
  "{" +:+ quoted "col_a" +:+ ":" +:+ quoted "event" +:+ ","
      +:+ quoted "col_b" +:+ ":" +:+ quoted "distinct_id" +:+ "}".

Definition mapping : gmap string value :=
  {[ "col_a" := VStr "event"; "col_b" := VStr "distinct_id" ]}.

Definition mapped_attachments : Attachments :=
  {| rowToEventMap := Some mapping_json; fieldConfigJson := None;
     propertyConfigJson := None |}.

Definition signup_row : Row :=
  [("col_a", VStr "signup"); ("col_b", VStr "u42"); ("col_c", VStr "ignored")].

End MoreExamples.

(** ** The job, path by path *)

Lemma mapM_apply_transformation `{Host} name att rows w :
  mapM (fun row => apply_transformation name row att) rows w =
  (transform_rows name att rows, w).
Proof.
  induction rows as [|row rest IH]; [reflexivity|].
  cbn [mapM transform_rows]. unfold mbind, M_bind at 1.
  unfold apply_transformation at 1, transform_row.
  destruct (transformations name) as [t|]; [|reflexivity].
  destruct (transform t row att) as [ev|e]; [|reflexivity].
  cbn. unfold mbind, M_bind at 1. rewrite IH.
  destruct (transform_rows name att rest); reflexivity.
Qed.

Lemma mapM_capture evs w :
  exists units,
    mapM (fun e => capture (event e) (properties e)) evs w =
    (Normal units, capture_all evs w).
Proof.
  revert w. induction evs as [|e rest IH]; intros w; [exists []; reflexivity|].
  destruct (IH (with_captured (event e, properties e) w)) as [units Hu].
  exists (tt :: units). cbn [mapM capture_all foldl].
  unfold mbind, M_bind at 1. cbn. unfold mbind, M_bind at 1.
  unfold capture_all in Hu. rewrite Hu. reflexivity.
Qed.

Lemma bind_normal {A B : Type} (m : M A) (k : A -> M B) w a w' :
  m w = (Normal a, w') -> (m ≫= k) w = k a w'.
Proof. intros Hm. unfold mbind, M_bind. rewrite Hm. reflexivity. Qed.

Lemma bind_throws {A B : Type} (m : M A) (k : A -> M B) w e w' :
  m w = (Throws e, w') -> (m ≫= k) w = (Throws e, w').
Proof. intros Hm. unfold mbind, M_bind. rewrite Hm. reflexivity. Qed.

(** The failure branch after the fetch: a log line and the retry job. *)
Lemma retry_branch p meta w off w1 :
  (if query_failed (fetch meta w off) then
     let nextRetrySeconds := (2 ^ retriesPerformedSoFar p * 3)%Q in
     console_log (LogRetrying off (off + batchSize (config meta))%Q nextRetrySeconds
                              (error (fetch meta w off)));;
     runIn {| offset := offset p;
              retriesPerformedSoFar := retriesPerformedSoFar p + 1 |}
           nextRetrySeconds
   else mret tt) w1 =
  (Normal tt,
   if query_failed (fetch meta w off) then
     with_scheduled (retry_of p, (2 ^ retriesPerformedSoFar p * 3)%Q)
       (with_console (LogRetrying off (off + batchSize (config meta))%Q
                                  (2 ^ retriesPerformedSoFar p * 3)%Q
                                  (error (fetch meta w off))) w1)
   else w1).
Proof. destruct (query_failed (fetch meta w off)); reflexivity. Qed.

Lemma rows_branch `{Host} name att (result : option (list Row)) w :
  match result with
  | Some rows => mapM (fun row => apply_transformation name row att) rows
  | None => mret []
  end w = (transform_rows name att (default [] result), w).
Proof. destruct result; [apply mapM_apply_transformation | reflexivity]. Qed.

(** The job as a case analysis on its three tests and on the outcome of the
    transformations. *)
Lemma importAndIngestEvents_paths `{Host} p meta w :
  importAndIngestEvents p meta w =
  let off := job_offset p meta w in
  if abandons p then
    (Normal ABANDONED,
     with_console (ErrSkippedRows off (off + batchSize (config meta))%Q) w)
  else if historical_done meta off then
    (Normal TERMINATED, with_console LogDoneHistorical w)
  else
    match transform_rows (transformationName (config meta)) (attachments meta)
            (default [] (queryResult (fetch meta w off))) with
    | Throws e => (Throws e, after_fetch p meta w off)
    | Normal evs => (Normal FINISHED, after_ingest meta off evs (after_fetch p meta w off))
    end.
Proof.
  assert (Hfrom : forall off,
    (if IMPORT_MECHANISMS_eqb (importMechanism (config meta)) HISTORICAL
        && negb (Qle_bool off (totalRows (global meta)))
     then console_log LogDoneHistorical;; mret TERMINATED
     else
       queryResponse ← executeQuery
         (SelectBatch (sanitizeSqlIdentifier (table (config meta)))
                      (sanitizeSql (orderBy (config meta))) (batchSize (config meta)))
         [off];
       (if query_failed queryResponse then
          let nextRetrySeconds := (2 ^ retriesPerformedSoFar p * 3)%Q in
          console_log (LogRetrying off (off + batchSize (config meta))%Q nextRetrySeconds
                                   (error queryResponse));;
          runIn {| offset := offset p;
                   retriesPerformedSoFar := retriesPerformedSoFar p + 1 |}
                nextRetrySeconds
        else mret tt);;
       eventsToIngest ← match queryResult queryResponse with
                        | Some rows =>
                            mapM (fun row =>
                                    apply_transformation
                                      (transformationName (config meta)) row
                                      (attachments meta)) rows
                        | None => mret []
                        end;
       mapM (fun e => capture (event e) (properties e)) eventsToIngest;;
       console_log (LogProcessed off (off + batchSize (config meta))%Q
                                 (length eventsToIngest));;
       cache_incr REDIS_OFFSET_KEY;;
       runIn {| offset := None; retriesPerformedSoFar := 0 |}
             (frequency (config meta));;
       mret FINISHED) w =
    if historical_done meta off then
      (Normal TERMINATED, with_console LogDoneHistorical w)
    else
      match transform_rows (transformationName (config meta)) (attachments meta)
              (default [] (queryResult (fetch meta w off))) with
      | Throws e => (Throws e, after_fetch p meta w off)
      | Normal evs =>
          (Normal FINISHED, after_ingest meta off evs (after_fetch p meta w off))
      end).
  { intros off. unfold historical_done.
    destruct (IMPORT_MECHANISMS_eqb _ _ && negb _); [reflexivity|].
    rewrite (bind_normal _ _ w (fetch meta w off) (with_sent (batch_query meta off) w))
      by reflexivity.
    erewrite bind_normal by apply retry_branch.
    fold (after_fetch p meta w off).
    destruct (transform_rows _ _ _) as [evs|e] eqn:Hrows.
    - erewrite bind_normal by (rewrite rows_branch, Hrows; reflexivity).
      destruct (mapM_capture evs (after_fetch p meta w off)) as [units Hcap].
      erewrite bind_normal by exact Hcap. reflexivity.
    - erewrite bind_throws by (rewrite rows_branch, Hrows; reflexivity).
      reflexivity. }
  unfold importAndIngestEvents, abandons, job_offset.
  destruct (truthy_offset p) as [o|] eqn:Ho.
  - destruct (15 <=? retriesPerformedSoFar p)%Z; [reflexivity|].
    rewrite (bind_normal _ _ w o w) by reflexivity. apply Hfrom.
  - rewrite (bind_normal _ _ w (effectiveOffset meta w) w) by reflexivity. apply Hfrom.
Qed.
(** A failed fetch carries no rows. *)
Lemma query_failed_no_rows r :
  query_failed (response_of r) = true -> queryResult (response_of r) = None.
Proof. destruct r as [[rows|]|err]; [discriminate | reflexivity | reflexivity]. Qed.

(** The abandonment path: a console line and nothing else. *)
Lemma run_abandoned `{Host} p meta w :
  abandons p = true ->
  importAndIngestEvents p meta w =
  (Normal ABANDONED,
   with_console (ErrSkippedRows (job_offset p meta w)
                   (job_offset p meta w + batchSize (config meta))%Q) w).
Proof. intros Ha. rewrite importAndIngestEvents_paths. cbv zeta. rewrite Ha. reflexivity. Qed.

(** The historical path: a console line and nothing else. *)
Lemma run_terminated `{Host} p meta w :
  abandons p = false ->
  historical_done meta (job_offset p meta w) = true ->
  importAndIngestEvents p meta w = (Normal TERMINATED, with_console LogDoneHistorical w).
Proof.
  intros Ha Hd. rewrite importAndIngestEvents_paths. cbv zeta. rewrite Ha, Hd. reflexivity.
Qed.

(** The path of a failed fetch: the retry is scheduled, and the run goes on
    to its end with no event, advancing the counter and scheduling a newly
    started batch as well. *)
Lemma run_failed_fetch `{Host} p meta w :
  abandons p = false ->
  historical_done meta (job_offset p meta w) = false ->
  query_failed (fetch meta w (job_offset p meta w)) = true ->
  importAndIngestEvents p meta w =
  (Normal FINISHED,
   after_ingest meta (job_offset p meta w) []
     (after_fetch p meta w (job_offset p meta w))).
Proof.
  intros Ha Hd Hf. rewrite importAndIngestEvents_paths. cbv zeta. rewrite Ha, Hd.
  unfold fetch in *. rewrite (query_failed_no_rows _ Hf). reflexivity.
Qed.

Lemma scheduled_after_fetch_failed p meta w off :
  query_failed (fetch meta w off) = true ->
  scheduled (after_fetch p meta w off) =
  scheduled w ++ [(retry_of p, (2 ^ retriesPerformedSoFar p * 3)%Q)].
Proof. intros Hf. unfold after_fetch. rewrite Hf. reflexivity. Qed.

Lemma scheduled_after_fetch_ok p meta w off :
  query_failed (fetch meta w off) = false ->
  scheduled (after_fetch p meta w off) = scheduled w.
Proof. intros Hf. unfold after_fetch. rewrite Hf. reflexivity. Qed.

Lemma cache_after_fetch p meta w off : cache (after_fetch p meta w off) = cache w.
Proof. unfold after_fetch. destruct (query_failed _); reflexivity. Qed.

Lemma storage_after_fetch p meta w off : storage (after_fetch p meta w off) = storage w.
Proof. unfold after_fetch. destruct (query_failed _); reflexivity. Qed.

Lemma sent_after_fetch p meta w off :
  sent (after_fetch p meta w off) = sent w ++ [batch_query meta off].
Proof. unfold after_fetch. destruct (query_failed _); reflexivity. Qed.

Lemma captured_after_fetch p meta w off : captured (after_fetch p meta w off) = captured w.
Proof. unfold after_fetch. destruct (query_failed _); reflexivity. Qed.

(** Capturing events touches [captured] only. *)
Lemma capture_all_frame evs w :
  cache (capture_all evs w) = cache w /\ storage (capture_all evs w) = storage w
  /\ scheduled (capture_all evs w) = scheduled w /\ sent (capture_all evs w) = sent w
  /\ captured (capture_all evs w) = captured w ++ map (fun e => (event e, properties e)) evs.
Proof.
  unfold capture_all. revert w.
  induction evs as [|e rest IH]; intros w; cbn [foldl map].
  - rewrite app_nil_r. repeat split.
  - destruct (IH (with_captured (event e, properties e) w)) as (Hc & Hs & Hj & Hq & Hcap).
    rewrite Hc, Hs, Hj, Hq, Hcap. cbn. rewrite <- app_assoc. repeat split.
Qed.

Lemma cache_after_ingest meta off evs w :
  cache (after_ingest meta off evs w) = <[REDIS_OFFSET_KEY := (counter w + 1)%Q]> (cache w).
Proof.
  unfold after_ingest, counter. cbn.
  destruct (capture_all_frame evs w) as (-> & _). reflexivity.
Qed.

Lemma sent_after_ingest meta off evs w : sent (after_ingest meta off evs w) = sent w.
Proof. unfold after_ingest. cbn. apply capture_all_frame. Qed.

Lemma storage_after_ingest meta off evs w : storage (after_ingest meta off evs w) = storage w.
Proof. unfold after_ingest. cbn. apply capture_all_frame. Qed.

Lemma scheduled_after_ingest meta off evs w :
  scheduled (after_ingest meta off evs w) = scheduled w ++ [(fresh, frequency (config meta))].
Proof.
  unfold after_ingest. cbn. destruct (capture_all_frame evs w) as (_ & _ & -> & _).
  reflexivity.
Qed.


Lemma truthy_offset_zero p o : offset p = Some o -> (o == 0)%Q -> truthy_offset p = None.
Proof.
  intros Hp Ho. unfold truthy_offset. rewrite Hp.
  apply Qeq_bool_iff in Ho. rewrite Ho. reflexivity.
Qed.

Lemma historical_done_spec meta off :
  historical_done meta off = true <->
  importMechanism (config meta) = HISTORICAL /\ (totalRows (global meta) < off)%Q.
Proof.
  unfold historical_done. rewrite andb_true_iff, negb_true_iff. split.
  - intros [Hm Hle]. split.
    + destruct (importMechanism (config meta)); [discriminate | reflexivity].
    + apply Qnot_le_lt. intros Hc. apply Qle_bool_iff in Hc. congruence.
  - intros [-> Hlt]. split; [reflexivity|].
    destruct (Qle_bool off (totalRows (global meta))) eqn:Hle; [|reflexivity].
    apply Qle_bool_iff in Hle. exfalso. exact (Qlt_not_le _ _ Hlt Hle).
Qed.

(** A run that is not abandoned never leaves through the abandonment
    return. *)
Lemma not_abandoned_exit `{Host} p meta w :
  abandons p = false -> fst (importAndIngestEvents p meta w) <> Normal ABANDONED.
Proof.
  intros Ha. rewrite importAndIngestEvents_paths. cbv zeta. rewrite Ha.
  destruct (historical_done _ _); [discriminate|].
  destruct (transform_rows _ _ _); discriminate.
Qed.

(** A run that is neither abandoned nor stopped by the historical test
    sends exactly the batch statement at its offset. *)
Lemma sent_when_fetching `{Host} p meta w :
  abandons p = false ->
  historical_done meta (job_offset p meta w) = false ->
  sent (snd (importAndIngestEvents p meta w)) =
  sent w ++ [batch_query meta (job_offset p meta w)].
Proof.
  intros Ha Hd. rewrite importAndIngestEvents_paths. cbv zeta. rewrite Ha, Hd.
  destruct (transform_rows _ _ _); cbn [snd].
  - rewrite sent_after_ingest. apply sent_after_fetch.
  - apply sent_after_fetch.
Qed.

(** Every failed fetch leaves two scheduled invocations behind, the retry
    and a newly started batch, and a counter advanced by one. *)
Lemma failed_fetch_two_successors `{Host} p meta w :
  abandons p = false ->
  historical_done meta (job_offset p meta w) = false ->
  query_failed (fetch meta w (job_offset p meta w)) = true ->
  let run := importAndIngestEvents p meta w in
  fst run = Normal FINISHED
  /\ scheduled (snd run) =
       scheduled w ++ [(retry_of p, (2 ^ retriesPerformedSoFar p * 3)%Q);
                       (fresh, frequency (config meta))]
  /\ cache (snd run) = <[REDIS_OFFSET_KEY := (counter w + 1)%Q]> (cache w).
Proof.
  intros Ha Hd Hf run. subst run. rewrite (run_failed_fetch p meta w Ha Hd Hf).
  cbn [fst snd]. split; [reflexivity|]. split.
  - rewrite scheduled_after_ingest, (scheduled_after_fetch_failed _ _ _ _ Hf).
    rewrite <- app_assoc. reflexivity.
  - rewrite cache_after_ingest. unfold counter. rewrite cache_after_fetch. reflexivity.
Qed.

(** A run whose fetch succeeds and that reaches its end schedules exactly
    one invocation: a newly started batch after [frequency] seconds. *)
Lemma successful_run_one_successor `{Host} p meta w w' :
  query_failed (fetch meta w (job_offset p meta w)) = false ->
  importAndIngestEvents p meta w = (Normal FINISHED, w') ->
  scheduled w' = scheduled w ++ [(fresh, frequency (config meta))].
Proof.
  intros Hf. rewrite importAndIngestEvents_paths. cbv zeta.
  destruct (abandons p); [discriminate|].
  destruct (historical_done _ _); [discriminate|].
  destruct (transform_rows _ _ _) as [evs|e]; [|discriminate].
  intros [= <-].
  rewrite scheduled_after_ingest, (scheduled_after_fetch_ok _ _ _ _ Hf). reflexivity.
Qed.

(** ** Properties of the job *)

(** C1 (code defect).  When the fetch fails, the run schedules the retry and
    then, instead of returning, runs on to the end of the function: it also
    advances the counter and schedules a newly started batch.  Two
    successors are in flight after one failed run. *)
Theorem C1_failed_fetch_schedules_retry_and_successor :
  let meta := Examples.example_meta 0 30 10 "default" CONTINUOUS in
  let w := Examples.world Examples.unreachable ∅ ∅ in
  let run := importAndIngestEvents (H := RefHost.host) fresh meta w in
  query_failed (fetch meta w (job_offset fresh meta w)) = true /\
  fst run = Normal FINISHED /\
  scheduled (snd run) = [(retry_of fresh, 3%Q); (fresh, 60%Q)] /\
  cache w !! REDIS_OFFSET_KEY = None /\
  cache (snd run) !! REDIS_OFFSET_KEY = Some 1%Q.
Proof. vm_compute. repeat split; reflexivity. Qed.





(** C4.  When the fetch of a run with [n] retries performed fails, for [n]
    from 0 to 14, the retry is scheduled after exactly [3 * 2^n] seconds
    (3, 6, 12, ...), carrying [n + 1] retries performed. *)
Theorem C4_retry_delay `{Host} p meta w (n : Z) :
  retriesPerformedSoFar p = n ->
  (0 <= n <= 14)%Z ->
  historical_done meta (job_offset p meta w) = false ->
  query_failed (fetch meta w (job_offset p meta w)) = true ->
  exists delay rest,
    scheduled (snd (importAndIngestEvents p meta w)) =
      scheduled w ++ (retry_of p, delay) :: rest
    /\ retriesPerformedSoFar (retry_of p) = (n + 1)%Z
    /\ (delay == inject_Z (3 * 2 ^ n))%Q.
Proof.
  intros Hn Hrange Hd Hf.
  assert (Ha : abandons p = false).
  { unfold abandons. destruct (truthy_offset p); [|reflexivity].
    apply Z.leb_gt. lia. }
  rewrite (run_failed_fetch p meta w Ha Hd Hf). cbn [snd].
  exists (2 ^ retriesPerformedSoFar p * 3)%Q, [(fresh, frequency (config meta))].
  split; [|split].
  - rewrite scheduled_after_ingest, (scheduled_after_fetch_failed _ _ _ _ Hf).
    rewrite <- app_assoc. reflexivity.
  - cbn. lia.
  - rewrite Hn, inject_Z_mult, Zpower_Qpower by lia.
    change (inject_Z 3) with 3%Q. change (inject_Z 2) with 2%Q. apply Qmult_comm.
Qed.

Lemma C4_retry_delay_witness :
  let meta := Examples.example_meta 0 30 10 "default" CONTINUOUS in
  let w := Examples.world Examples.unreachable ∅ ∅ in
  let p := {| offset := None; retriesPerformedSoFar := 2 |} in
  retriesPerformedSoFar p = 2%Z /\ (0 <= 2 <= 14)%Z /\
  historical_done meta (job_offset p meta w) = false /\
  query_failed (fetch meta w (job_offset p meta w)) = true /\
  exists delay rest,
    scheduled (snd (importAndIngestEvents (H := RefHost.host) p meta w)) =
      scheduled w ++ (retry_of p, delay) :: rest
    /\ retriesPerformedSoFar (retry_of p) = (2 + 1)%Z
    /\ (delay == inject_Z (3 * 2 ^ 2))%Q.
Proof.
  cbv zeta. split; [reflexivity|]. split; [lia|].
  split; [reflexivity|]. split; [reflexivity|].
  apply (C4_retry_delay (H := RefHost.host)); [reflexivity | lia | reflexivity | reflexivity].
Defined.

(** C5.  In historical mode a run whose offset exceeds [totalRows] stops at
    once: no statement is sent, no event is captured and no invocation is
    scheduled; the run only logs that the import is done. *)
Theorem C5_historical_run_stops `{Host} p meta w :
  importMechanism (config meta) = HISTORICAL ->
  (totalRows (global meta) < job_offset p meta w)%Q ->
  let run := importAndIngestEvents p meta w in
  (abandons p = false ->
   run = (Normal TERMINATED, with_console LogDoneHistorical w))
  /\ (exists exit, fst run = Normal exit)
  /\ sent (snd run) = sent w
  /\ captured (snd run) = captured w
  /\ scheduled (snd run) = scheduled w
  /\ cache (snd run) = cache w
  /\ storage (snd run) = storage w.
Proof.
  intros Hm Hlt run.
  assert (Hd : historical_done meta (job_offset p meta w) = true)
    by (apply historical_done_spec; split; assumption).
  subst run. destruct (abandons p) eqn:Ha.
  - rewrite (run_abandoned p meta w Ha). cbn.
    split; [discriminate|]. split; [eexists; reflexivity|]. repeat split.
  - rewrite (run_terminated p meta w Ha Hd). cbn.
    split; [reflexivity|]. split; [eexists; reflexivity|]. repeat split.
Qed.

Lemma C5_historical_run_stops_witness :
  let meta := Examples.example_meta 0 30 10 "default" HISTORICAL in
  let w := Examples.world (Examples.serving Examples.thirty_rows) ∅
             {[ REDIS_OFFSET_KEY := 4%Q ]} in
  let run := importAndIngestEvents (H := RefHost.host) fresh meta w in
  importMechanism (config meta) = HISTORICAL /\
  (totalRows (global meta) < job_offset fresh meta w)%Q /\
  (abandons fresh = false ->
   run = (Normal TERMINATED, with_console LogDoneHistorical w))
  /\ (exists exit, fst run = Normal exit)
  /\ sent (snd run) = sent w
  /\ captured (snd run) = captured w
  /\ scheduled (snd run) = scheduled w
  /\ cache (snd run) = cache w
  /\ storage (snd run) = storage w.
Proof.
  cbv zeta. split; [reflexivity|]. split; [reflexivity|].
  apply (C5_historical_run_stops (H := RefHost.host)); reflexivity.
Defined.

(** C10.  A payload that carries the offset [0] is handled as a newly
    started batch, whatever its retry count: the abandonment test does not
    fire, the run never leaves through the abandonment return, and the
    offset it works at, and sends when it fetches, is recomputed from
    [initialOffset] and the counter. *)
Theorem C10_offset_zero_is_fresh `{Host} p meta w o :
  offset p = Some o ->
  (o == 0)%Q ->
  let run := importAndIngestEvents p meta w in
  abandons p = false
  /\ fst run <> Normal ABANDONED
  /\ job_offset p meta w = effectiveOffset meta w
  /\ (historical_done meta (effectiveOffset meta w) = false ->
      sent (snd run) = sent w ++ [batch_query meta (effectiveOffset meta w)])
  /\ (historical_done meta (effectiveOffset meta w) = true ->
      run = (Normal TERMINATED, with_console LogDoneHistorical w)).
Proof.
  intros Hp Ho run.
  pose proof (truthy_offset_zero p o Hp Ho) as Ht.
  assert (Ha : abandons p = false) by (unfold abandons; rewrite Ht; reflexivity).
  assert (Hoff : job_offset p meta w = effectiveOffset meta w)
    by (unfold job_offset; rewrite Ht; reflexivity).
  split; [exact Ha|]. split; [apply not_abandoned_exit; exact Ha|].
  split; [exact Hoff|]. split.
  - intros Hd. subst run. rewrite <- Hoff in *. apply sent_when_fetching; assumption.
  - intros Hd. subst run. rewrite <- Hoff in Hd. apply run_terminated; assumption.
Qed.

Lemma C10_offset_zero_is_fresh_witness :
  let meta := Examples.example_meta 20 30 10 "default" CONTINUOUS in
  let w := Examples.world (Examples.serving Examples.thirty_rows) ∅ ∅ in
  let p := {| offset := Some 0%Q; retriesPerformedSoFar := 15 |} in
  let run := importAndIngestEvents (H := RefHost.host) p meta w in
  offset p = Some 0%Q /\ (0 == 0)%Q /\
  abandons p = false
  /\ fst run <> Normal ABANDONED
  /\ job_offset p meta w = effectiveOffset meta w
  /\ (historical_done meta (effectiveOffset meta w) = false ->
      sent (snd run) = sent w ++ [batch_query meta (effectiveOffset meta w)])
  /\ (historical_done meta (effectiveOffset meta w) = true ->
      run = (Normal TERMINATED, with_console LogDoneHistorical w)).
Proof.
  cbv zeta. split; [reflexivity|]. split; [reflexivity|].
  apply (C10_offset_zero_is_fresh (H := RefHost.host) _ _ _ 0%Q); reflexivity.
Defined.

(** ** Properties of the transformations *)

(** A response that carries rows is not a failed one. *)
Lemma rows_not_failed r rows :
  queryResult (response_of r) = Some rows -> query_failed (response_of r) = false.
Proof. destruct r as [[rows'|]|err]; [reflexivity | discriminate | discriminate]. Qed.

(** C8.  The default transformation maps the row with event [click],
    timestamp [2023-01-01], distinct_id [u1] and, as properties, the JSON
    text of [{a: 1}], to the event [click] with the properties timestamp
    [2023-01-01], distinct_id [u1], a [1] and source [snowflake_import]:
    the first two are nested under the properties, the JSON column is
    parsed and merged, and the source is tagged.  The only fact used about
    [JSON.parse] is that it reads that text as the object [{a: 1}]. *)
Theorem C8_default_transform_scenario `{Host} att :
  JSON_parse (VStr Examples.a1_json) = Some (VObj {[ "a" := VNum 1 ]}) ->
  transform_row "default" att Examples.click_row = Normal Examples.click_event.
Proof.
  intros Hparse. unfold transform_row.
  change (transformations "default")
    with (Some {| author := "yakkomajuri"; transform := fun row _ => transform_default row |}).
  cbn [transform]. unfold transform_default.
  change (row_get Examples.click_row "properties") with (VStr Examples.a1_json).
  rewrite Hparse.
  change (row_get Examples.click_row "event") with (VStr "click").
  change (row_get Examples.click_row "timestamp") with (VStr "2023-01-01").
  change (row_get Examples.click_row "distinct_id") with (VStr "u1").
  unfold Examples.click_event, spread. vm_compute. reflexivity.
Qed.

Lemma C8_default_transform_scenario_witness :
  JSON_parse (Host := RefHost.host) (VStr Examples.a1_json) = Some (VObj {[ "a" := VNum 1 ]})
  /\ transform_row (H := RefHost.host) "default" Examples.no_attachments Examples.click_row
     = Normal Examples.click_event.
Proof.
  split; [vm_compute; reflexivity|].
  apply (C8_default_transform_scenario (H := RefHost.host)). vm_compute. reflexivity.
Defined.

Lemma transform_rows_throws `{Host} name att row rest e :
  transform_row name att row = Throws e ->
  transform_rows name att (row :: rest) = Throws e.
Proof.
  intros Hrow.
  change (transform_rows name att (row :: rest))
    with (match transform_row name att row with
          | Throws e' => Throws e'
          | Normal ev =>
              match transform_rows name att rest with
              | Throws e' => Throws e'
              | Normal evs => Normal (ev :: evs)
              end
          end).
  rewrite Hrow. reflexivity.
Qed.

(** A transformation that throws on the first row of a batch makes the
    whole run throw, right after the fetch. *)
Lemma run_throws_on_first_row `{Host} p meta w row rest e :
  abandons p = false ->
  historical_done meta (job_offset p meta w) = false ->
  queryResult (fetch meta w (job_offset p meta w)) = Some (row :: rest) ->
  transform_row (transformationName (config meta)) (attachments meta) row = Throws e ->
  importAndIngestEvents p meta w =
  (Throws e, with_sent (batch_query meta (job_offset p meta w)) w).
Proof.
  intros Ha Hd Hrows Hthrow. rewrite importAndIngestEvents_paths. cbv zeta.
  rewrite Ha, Hd, Hrows.
  change (default [] (Some (row :: rest))) with (row :: rest).
  rewrite (transform_rows_throws _ _ _ _ _ Hthrow).
  unfold after_fetch, fetch in *. rewrite (rows_not_failed _ _ Hrows). reflexivity.
Qed.

(** C9.  Without its required attachment, the 'JSON Map' transformation
    and the 'Cleaned-Up Properties' transformation throw on every row and
    return no event.  A run that fetched at least one row then throws
    too: it captures nothing, does not advance the counter and schedules
    nothing, so the row is not skipped over. *)
Theorem C9_missing_attachment_is_fatal `{Host} name att e row :
  missing_attachment name att e ->
  transform_row name att row = Throws e
  /\ forall p g cfg w rest,
       transformationName cfg = name ->
       let meta := {| global := g; config := cfg; attachments := att |} in
       abandons p = false ->
       historical_done meta (job_offset p meta w) = false ->
       queryResult (fetch meta w (job_offset p meta w)) = Some (row :: rest) ->
       let run := importAndIngestEvents p meta w in
       fst run = Throws e
       /\ captured (snd run) = captured w
       /\ cache (snd run) = cache w
       /\ storage (snd run) = storage w
       /\ scheduled (snd run) = scheduled w.
Proof.
  intros Hmiss.
  assert (Hrow : transform_row name att row = Throws e).
  { destruct Hmiss as [(-> & Hnone & ->) | (-> & Hnone & ->)].
    - unfold transform_row.
      change (transformations "JSON Map")
        with (Some {| author := "yakkomajuri"; transform := transform_JSON_Map |}).
      cbn [transform]. unfold transform_JSON_Map. rewrite Hnone. reflexivity.
    - unfold transform_row.
      change (transformations "Cleaned-Up Properties")
        with (Some {| author := "tacastillo"; transform := transform_Cleaned_Up_Properties |}).
      cbn [transform]. unfold transform_Cleaned_Up_Properties. rewrite Hnone. reflexivity. }
  split; [exact Hrow|].
  intros p g cfg w rest Hname meta Ha Hd Hrows run. subst run.
  rewrite (run_throws_on_first_row p meta w row rest e Ha Hd Hrows)
    by (subst meta; cbn [config attachments]; rewrite Hname; exact Hrow).
  repeat split.
Qed.

Lemma C9_missing_attachment_is_fatal_witness :
  let name := "JSON Map" in
  let e := "Row to event mapping JSON file not provided!" in
  missing_attachment name Examples.no_attachments e
  /\ transform_row (H := RefHost.host) name Examples.no_attachments Examples.click_row
     = Throws e
  /\ forall p g cfg w rest,
       transformationName cfg = name ->
       let meta := {| global := g; config := cfg; attachments := Examples.no_attachments |} in
       abandons p = false ->
       historical_done meta (job_offset p meta w) = false ->
       queryResult (fetch meta w (job_offset p meta w)) = Some (Examples.click_row :: rest) ->
       let run := importAndIngestEvents (H := RefHost.host) p meta w in
       fst run = Throws e
       /\ captured (snd run) = captured w
       /\ cache (snd run) = cache w
       /\ storage (snd run) = storage w
       /\ scheduled (snd run) = scheduled w.
Proof.
  cbv zeta.
  assert (Hmiss : missing_attachment "JSON Map" Examples.no_attachments
                    "Row to event mapping JSON file not provided!").
  { left. split; [reflexivity|]. split; reflexivity. }
  split; [exact Hmiss|].
  exact (C9_missing_attachment_is_fatal (H := RefHost.host) _ _ _ Examples.click_row Hmiss).
Defined.

(** The run of the scenario above on a concrete batch: 'JSON Map' without
    its attachment on a source that serves rows. *)
Example missing_attachment_run :
  let meta := Examples.example_meta 0 30 10 "JSON Map" CONTINUOUS in
  let w := Examples.world (Examples.serving Examples.thirty_rows) ∅ ∅ in
  let run := importAndIngestEvents (H := RefHost.host) fresh meta w in
  fst run = Throws "Row to event mapping JSON file not provided!"
  /\ sent (snd run) = [batch_query meta 0%Q]
  /\ captured (snd run) = [] /\ scheduled (snd run) = []
  /\ cache (snd run) !! REDIS_OFFSET_KEY = None.
Proof. vm_compute. repeat split; reflexivity. Qed.

(** ** Offsets of consecutive batches *)

(** A run that reaches its end advanced the counter by one and sent the
    batch statement at its offset. *)
Lemma finished_run `{Host} p meta w w' :
  importAndIngestEvents p meta w = (Normal FINISHED, w') ->
  cache w' = <[REDIS_OFFSET_KEY := (counter w + 1)%Q]> (cache w)
  /\ storage w' = storage w
  /\ sent w' = sent w ++ [batch_query meta (job_offset p meta w)].
Proof.
  rewrite importAndIngestEvents_paths. cbv zeta.
  destruct (abandons p); [discriminate|].
  destruct (historical_done _ _); [discriminate|].
  destruct (transform_rows _ _ _) as [evs|e]; [|discriminate].
  intros [= <-].
  rewrite cache_after_ingest, storage_after_ingest, sent_after_ingest.
  unfold counter. rewrite cache_after_fetch, storage_after_fetch, sent_after_fetch.
  repeat split.
Qed.

Lemma effectiveOffset_step meta w w' :
  cache w' = <[REDIS_OFFSET_KEY := (counter w + 1)%Q]> (cache w) ->
  (effectiveOffset meta w' == effectiveOffset meta w + batchSize (config meta))%Q.
Proof.
  intros Hc. unfold effectiveOffset, counter at 1. rewrite Hc, lookup_insert_eq.
  cbn [from_option id]. ring.
Qed.

Lemma last_offset_sent_snoc w qs meta off :
  sent w = qs ++ [batch_query meta off] -> last_offset_sent w = Some off.
Proof. intros Hs. unfold last_offset_sent. rewrite Hs, last_snoc. reflexivity. Qed.

(** The offsets seen by the source over [n] consecutive successful batches
    start at the effective offset and go up by the batch size. *)
Lemma fresh_batches_offsets `{Host} n meta : forall w offs w',
  fresh_batches n meta w = Some (offs, w') ->
  length offs = n
  /\ (forall x, head offs = Some x -> x = effectiveOffset meta w)
  /\ forall k x y, offs !! k = Some x -> offs !! S k = Some y ->
       (y == x + batchSize (config meta))%Q.
Proof.
  induction n as [|n IH]; intros w offs w' Hrun.
  - injection Hrun as <- <-. split; [reflexivity|]. split; [discriminate|].
    intros k x y Hx. discriminate.
  - cbn [fresh_batches] in Hrun.
    destruct (query_failed _); [discriminate|].
    destruct (importAndIngestEvents fresh meta w) as [[[]|e] w1] eqn:Hstep;
      try discriminate.
    destruct (finished_run _ _ _ _ Hstep) as (Hcache & _ & Hsent).
    rewrite (last_offset_sent_snoc _ _ _ _ Hsent) in Hrun. cbn in Hrun.
    destruct (fresh_batches n meta w1) as [[offs1 w2]|] eqn:Hrest; [|discriminate].
    cbn in Hrun. injection Hrun as <- <-.
    destruct (IH _ _ _ Hrest) as (Hlen & Hhead & Hnext).
    split; [cbn; rewrite Hlen; reflexivity|]. split.
    + intros x [= <-]. reflexivity.
    + intros [|k] x y Hx Hy.
      * injection Hx as <-. cbn in Hy.
        rewrite (Hhead y) by (destruct offs1; [discriminate | exact Hy]).
        apply effectiveOffset_step. exact Hcache.
      * exact (Hnext k x y Hx Hy).
Qed.

(** C6.  Over consecutive successful newly started batches, each batch
    fetches at the offset of the one before plus the batch size: the
    windows leave no gap and do not overlap. *)
Theorem C6_consecutive_offsets `{Host} n meta w offs :
  fst <$> fresh_batches n meta w = Some offs ->
  length offs = n
  /\ forall k x y, offs !! k = Some x -> offs !! S k = Some y ->
       (y == x + batchSize (config meta))%Q.
Proof.
  destruct (fresh_batches n meta w) as [[offs' w']|] eqn:Hrun; [|discriminate].
  intros [= <-]. destruct (fresh_batches_offsets n meta w offs' w' Hrun) as (Hlen & _ & Hnext).
  split; assumption.
Qed.

Lemma C6_consecutive_offsets_witness :
  let meta := Examples.example_meta 0 30 10 "default" CONTINUOUS in
  let w := Examples.world (Examples.serving Examples.thirty_rows) ∅ ∅ in
  let offs := [0%Q; 10%Q; 20%Q] in
  fst <$> fresh_batches (H := RefHost.host) 3 meta w = Some offs
  /\ length offs = 3%nat
  /\ forall k x y, offs !! k = Some x -> offs !! S k = Some y ->
       (y == x + batchSize (config meta))%Q.
Proof.
  cbv zeta. split; [vm_compute; reflexivity|].
  apply (C6_consecutive_offsets (H := RefHost.host) 3
           (Examples.example_meta 0 30 10 "default" CONTINUOUS)
           (Examples.world (Examples.serving Examples.thirty_rows) ∅ ∅)).
  vm_compute. reflexivity.
Defined.

(** ** The durable checkpoint *)

(** What [loadInitialOffset] does: it returns the stored offset (default
    [0]) and sets the counter to that offset divided by the batch size. *)
Lemma loadInitialOffset_spec config w :
  loadInitialOffset config w =
  (Normal (default 0%Q (storage w !! REDIS_OFFSET_KEY)),
   with_cache (insert REDIS_OFFSET_KEY
                 (default 0%Q (storage w !! REDIS_OFFSET_KEY) / batchSize config)%Q) w).
Proof. reflexivity. Qed.

(** A successful [setupPlugin] restored the offset with [loadInitialOffset]:
    [initialOffset] is the stored offset and the counter is that offset
    divided by the batch size. *)
Lemma setupPlugin_restores `{Host} config w g w' :
  setupPlugin config w = (Normal g, w') ->
  initialOffset g = default 0%Q (storage w !! REDIS_OFFSET_KEY)
  /\ cache w' !! REDIS_OFFSET_KEY = Some (initialOffset g / batchSize config)%Q.
Proof.
  unfold setupPlugin.
  destruct (List.find _ _); [discriminate|].
  unfold executeQuery, client_execute, console_log, storage_get, storage_set,
    loadInitialOffset, cache_set, runIn, modify, gets, throw, mbind, M_bind, mret, M_ret.
  cbn. intros Hrun.
  assert (Hkeys : REDIS_TOTAL_ROWS_KEY <> REDIS_OFFSET_KEY) by discriminate.
  repeat case_match; simplify_eq; cbn;
    rewrite ?lookup_insert_eq, ?(lookup_insert_ne _ _ _ _ Hkeys); split; reflexivity.
Qed.

(** What [teardownPlugin] does: it stores the counter times the batch size,
    capped at [totalRows], and clears the pool. *)
Lemma teardownPlugin_spec meta w :
  teardownPlugin meta w =
  let workerOffset := (counter w * batchSize (config meta))%Q in
  (Normal tt,
   with_poolCleared
     (with_storage
        (insert REDIS_OFFSET_KEY
           (if negb (Qle_bool workerOffset (totalRows (global meta)))
            then totalRows (global meta) else workerOffset)) w)).
Proof. reflexivity. Qed.

(** After a restart the counter already holds the stored offset (divided
    by the batch size), and [initialOffset] holds it again: the first newly
    started batch works at twice the stored offset. *)
Lemma restart_effective_offset `{Host} cfg w g w' att :
  setupPlugin cfg w = (Normal g, w') ->
  ~ (batchSize cfg == 0)%Q ->
  (effectiveOffset {| global := g; config := cfg; attachments := att |} w'
   == 2 * default 0%Q (storage w !! REDIS_OFFSET_KEY))%Q.
Proof.
  intros Hsetup Hsize. destruct (setupPlugin_restores _ _ _ _ Hsetup) as [Hinit Hcache].
  unfold effectiveOffset, counter. cbn [global config]. rewrite Hcache, Hinit.
  cbn [from_option id]. field. exact Hsize.
Qed.

(** C3 (code defect).  With the offset 10 stored and a batch size of 10,
    startup keeps 10 as [initialOffset] and also sets the counter to
    10 / 10 = 1, so the first newly started batch fetches at
    10 + 1 * 10 = 20: the rows 10 to 19 are never fetched. *)
Theorem C3_restart_fetches_past_the_stored_offset :
  let cfg := Examples.example_config 10 "default" CONTINUOUS in
  let w := Examples.world (Examples.serving Examples.thirty_rows)
             {[ REDIS_OFFSET_KEY := 10%Q ]} ∅ in
  let setup := setupPlugin (H := RefHost.host) cfg w in
  exists g,
    fst setup = Normal g
    /\ initialOffset g = 10%Q
    /\ scheduled (snd setup) = [(fresh, 60%Q)]
    /\ let meta := {| global := g; config := cfg; attachments := Examples.no_attachments |} in
       let run := importAndIngestEvents (H := RefHost.host) fresh meta (snd setup) in
       fst run = Normal FINISHED
       /\ exists off,
            last_offset_sent (snd run) = Some off
            /\ (off == 20)%Q /\ ~ (off <= 10)%Q.
Proof.
  cbv zeta. exists {| initialOffset := 10%Q; totalRows := 30%Q |}.
  split; [vm_compute; reflexivity|]. split; [reflexivity|].
  split; [vm_compute; reflexivity|]. split; [vm_compute; reflexivity|].
  exists (200 # 10)%Q. split; [vm_compute; reflexivity|].
  split; [reflexivity|]. apply Qlt_not_le. reflexivity.
Qed.

(** C7, as stated, fails above [totalRows].  After two batches of 10 rows
    over a snapshot of 15 rows the worker offset is 20; teardown stores
    15, and the next startup loads 15. *)
Lemma C7_round_trip_fails_above_totalRows :
  let meta := Examples.example_meta 0 15 10 "default" HISTORICAL in
  let w := Examples.world (Examples.serving Examples.thirty_rows) ∅
             {[ REDIS_OFFSET_KEY := 2%Q ]} in
  let stored := snd (teardownPlugin meta w) in
  (counter w * batchSize (config meta) == 20)%Q
  /\ fst (loadInitialOffset (config meta) stored) = Normal 15%Q
  /\ (exists g, fst (setupPlugin (H := RefHost.host) (config meta) stored) = Normal g
                /\ initialOffset g = 15%Q)
  /\ ~ (15 == 20)%Q.
Proof.
  cbv zeta. split; [reflexivity|]. split; [vm_compute; reflexivity|]. split.
  - exists {| initialOffset := 15%Q; totalRows := 30%Q |}.
    split; vm_compute; reflexivity.
  - discriminate.
Qed.

(** C7 (amended).  A worker offset [O] that does not exceed [totalRows] is
    stored as it is by teardown, and the next startup, reading the same
    stored value, loads [O] as its initial offset. *)
Theorem C7_checkpoint_round_trip `{Host} meta w cfg w2 :
  let O := (counter w * batchSize (config meta))%Q in
  (O <= totalRows (global meta))%Q ->
  storage w2 !! REDIS_OFFSET_KEY
    = storage (snd (teardownPlugin meta w)) !! REDIS_OFFSET_KEY ->
  fst (teardownPlugin meta w) = Normal tt
  /\ storage (snd (teardownPlugin meta w)) !! REDIS_OFFSET_KEY = Some O
  /\ fst (loadInitialOffset cfg w2) = Normal O
  /\ forall g w3, setupPlugin cfg w2 = (Normal g, w3) -> initialOffset g = O.
Proof.
  intros O Hle Hsame.
  assert (Hstored : storage (snd (teardownPlugin meta w)) !! REDIS_OFFSET_KEY = Some O).
  { rewrite teardownPlugin_spec. cbv zeta. cbn [snd storage with_poolCleared with_storage].
    rewrite lookup_insert_eq. fold O.
    apply Qle_bool_iff in Hle. rewrite Hle. reflexivity. }
  split; [reflexivity|]. split; [exact Hstored|].
  rewrite Hstored in Hsame. split.
  - rewrite loadInitialOffset_spec. cbn [fst]. rewrite Hsame. reflexivity.
  - intros g w3 Hsetup. destruct (setupPlugin_restores _ _ _ _ Hsetup) as [-> _].
    rewrite Hsame. reflexivity.
Qed.

Lemma C7_checkpoint_round_trip_witness :
  let meta := Examples.example_meta 0 30 10 "default" CONTINUOUS in
  let w := Examples.world (Examples.serving Examples.thirty_rows) ∅
             {[ REDIS_OFFSET_KEY := 2%Q ]} in
  let w2 := Examples.world (Examples.serving Examples.thirty_rows)
              (storage (snd (teardownPlugin meta w))) ∅ in
  let O := (counter w * batchSize (config meta))%Q in
  (O <= totalRows (global meta))%Q
  /\ storage w2 !! REDIS_OFFSET_KEY
       = storage (snd (teardownPlugin meta w)) !! REDIS_OFFSET_KEY
  /\ fst (teardownPlugin meta w) = Normal tt
  /\ storage (snd (teardownPlugin meta w)) !! REDIS_OFFSET_KEY = Some O
  /\ fst (loadInitialOffset (config meta) w2) = Normal O
  /\ forall g w3, setupPlugin (H := RefHost.host) (config meta) w2 = (Normal g, w3) ->
                  initialOffset g = O.
Proof.
  cbv zeta. split; [discriminate|]. split; [reflexivity|].
  apply (C7_checkpoint_round_trip (H := RefHost.host)); [discriminate | reflexivity].
Defined.

(** The startup of the scenario above succeeds and loads the offset 20
    that teardown stored. *)
Example round_trip_run :
  let meta := Examples.example_meta 0 30 10 "default" CONTINUOUS in
  let w := Examples.world (Examples.serving Examples.thirty_rows) ∅
             {[ REDIS_OFFSET_KEY := 2%Q ]} in
  let w2 := Examples.world (Examples.serving Examples.thirty_rows)
              (storage (snd (teardownPlugin meta w))) ∅ in
  fst (setupPlugin (H := RefHost.host) (config meta) w2)
  = Normal {| initialOffset := 20%Q; totalRows := 30%Q |}.
Proof. vm_compute. reflexivity. Qed.

(** ** Identifiers sent to the data source *)

Lemma word_char_not_quote a : is_word_char a = true -> (nat_of_ascii a =? 39) = false.
Proof. destruct a as [[] [] [] [] [] [] [] []]; vm_compute; congruence. Qed.

Lemma count_quotes_app s1 s2 :
  count_quotes (s1 +:+ s2) = count_quotes s1 + count_quotes s2.
Proof.
  induction s1 as [|a s1 IH]; [reflexivity|].
  simpl. rewrite IH. lia.
Qed.

(** X1.  Whatever the text, [sanitizeSql] returns letters, digits and
    underscores only. *)
Theorem sanitizeSql_word_chars text :
  all_chars is_word_char (sanitizeSql text) = true.
Proof.
  induction text as [|a rest IH]; [reflexivity|].
  cbn [sanitizeSql]. destruct (is_word_char a) eqn:Ha; [|exact IH].
  cbn [all_chars]. rewrite Ha, IH. reflexivity.
Qed.

(** X2.  [sanitizeSql] returns a text of letters, digits and underscores
    as it is. *)
Theorem sanitizeSql_clean text :
  all_chars is_word_char text = true -> sanitizeSql text = text.
Proof.
  induction text as [|a rest IH]; [reflexivity|].
  cbn [all_chars sanitizeSql]. intros [Ha Hrest]%andb_true_iff.
  rewrite Ha, (IH Hrest). reflexivity.
Qed.

Lemma sanitizeSql_clean_witness :
  all_chars is_word_char "inserted_on" = true /\ sanitizeSql "inserted_on" = "inserted_on".
Proof.
  split; [reflexivity|]. apply (sanitizeSql_clean "inserted_on"). reflexivity.
Defined.

(** X3.  Sanitizing twice is sanitizing once. *)
Theorem sanitizeSql_idempotent text :
  sanitizeSql (sanitizeSql text) = sanitizeSql text.
Proof.
  induction text as [|a rest IH]; [reflexivity|].
  cbn [sanitizeSql]. destruct (is_word_char a) eqn:Ha; [|exact IH].
  cbn [sanitizeSql]. rewrite Ha, IH. reflexivity.
Qed.

(** X4.  The identifier expression built from any table name holds exactly
    two single quotes, the ones that delimit the name: no table name can
    close the quotation early. *)
Theorem sanitizeSqlIdentifier_quotes unquotedIdentifier :
  count_quotes (sanitizeSqlIdentifier unquotedIdentifier) = 2.
Proof.
  unfold sanitizeSqlIdentifier. rewrite !count_quotes_app.
  assert (Hnone : count_quotes (sanitizeSql unquotedIdentifier) = 0).
  { induction unquotedIdentifier as [|a rest IH]; [reflexivity|].
    cbn [sanitizeSql]. destruct (is_word_char a) eqn:Ha; [|exact IH].
    cbn [count_quotes]. rewrite (word_char_not_quote a Ha), IH. reflexivity. }
  rewrite Hnone. reflexivity.
Qed.

(** ** Startup, path by path *)

Lemma find_missing_none cfg :
  config_complete cfg = true ->
  List.find (fun option => negb (existsb (String.eqb option) (configKeys cfg)))
            requiredConfigOptions = None.
Proof.
  unfold config_complete. intros Hall.
  induction requiredConfigOptions as [|o rest IH]; [reflexivity|].
  cbn [forallb List.find] in *. apply andb_true_iff in Hall as [Ho Hrest].
  rewrite Ho. cbn [negb]. exact (IH Hrest).
Qed.

(** [setupPlugin] as a case analysis on its checks. *)
Lemma setupPlugin_paths `{Host} cfg w :
  setupPlugin cfg w =
  match List.find (fun option => negb (existsb (String.eqb option) (configKeys cfg)))
                  requiredConfigOptions with
  | Some option => (Throws ("Required config option " +:+ option +:+ " is missing!"), w)
  | None =>
      let w1 := with_sent (count_query cfg) (with_console LogSpinningUp w) in
      if query_failed (count_response cfg w) then
        (Throws ("Query failed because: " +:+ error_text (error (count_response cfg w))),
         w1)
      else
        let w2 := with_console LogTotalRowsFound w1 in
        match default [] (queryResult (count_response cfg w)) with
        | [] => (Throws "TypeError", w2)
        | row0 :: _ =>
            let historical := IMPORT_MECHANISMS_eqb (importMechanism cfg) HISTORICAL in
            let total := if historical then default (counted row0) (stored_snapshot w)
                         else counted row0 in
            let w3 := if historical && negb (bool_decide (is_Some (stored_snapshot w)))
                      then with_storage (insert REDIS_TOTAL_ROWS_KEY (counted row0)) w2
                      else w2 in
            let stored := default 0%Q (storage w !! REDIS_OFFSET_KEY) in
            let w4 := with_cache (insert REDIS_OFFSET_KEY (stored / batchSize cfg)%Q) w3 in
            if Qeq_bool (frequency cfg) 0 then
              (Throws "Invalid frequency input! Please insert a number in seconds.", w4)
            else
              (Normal {| initialOffset := stored; totalRows := total |},
               with_scheduled (fresh, frequency cfg) w4)
        end
  end.
Proof.
  assert (Hkeys : REDIS_TOTAL_ROWS_KEY <> REDIS_OFFSET_KEY) by discriminate.
  unfold setupPlugin, count_response, count_query, stored_snapshot, counted.
  destruct (List.find _ _); [reflexivity|].
  unfold executeQuery, client_execute, console_log, storage_get, storage_set,
    loadInitialOffset, cache_set, runIn, modify, gets, throw, mbind, M_bind, mret, M_ret.
  cbn.
  unfold fresh.
  repeat case_match; simplify_eq; cbn in *;
    rewrite ?(lookup_insert_ne _ _ _ _ Hkeys); try reflexivity; try congruence.
Qed.

(** X5.  When a required option is not a key of the config object, startup
    throws, naming a required option that is missing, before it does
    anything: no statement is sent, nothing is stored and no job is
    scheduled. *)
Theorem setup_missing_option `{Host} cfg w o :
  In o requiredConfigOptions ->
  ~ In o (configKeys cfg) ->
  exists missing,
    In missing requiredConfigOptions /\ ~ In missing (configKeys cfg)
    /\ setupPlugin cfg w
       = (Throws ("Required config option " +:+ missing +:+ " is missing!"), w).
Proof.
  intros Hreq Habsent. rewrite setupPlugin_paths.
  destruct (List.find _ _) as [missing|] eqn:Hfind.
  - apply find_some in Hfind as [Hin Hneg]. exists missing.
    split; [exact Hin|]. split; [|reflexivity].
    intros Hkey. apply negb_true_iff in Hneg.
    assert (Hex : existsb (String.eqb missing) (configKeys cfg) = true)
      by (apply existsb_exists; exists missing; split; [exact Hkey | apply String.eqb_refl]).
    congruence.
  - exfalso. pose proof (find_none _ _ Hfind o Hreq) as Hneg. cbn beta in Hneg.
    apply negb_false_iff, existsb_exists in Hneg as (k & Hk & Heq).
    apply String.eqb_eq in Heq. subst k. contradiction.
Qed.

Lemma setup_missing_option_witness :
  let cfg := MoreExamples.incomplete_config in
  let w := Examples.world (Examples.serving Examples.thirty_rows) ∅ ∅ in
  In "table" requiredConfigOptions /\ ~ In "table" (configKeys cfg)
  /\ exists missing,
       In missing requiredConfigOptions /\ ~ In missing (configKeys cfg)
       /\ setupPlugin (H := RefHost.host) cfg w
          = (Throws ("Required config option " +:+ missing +:+ " is missing!"), w).
Proof.
  cbv zeta.
  assert (Hreq : In "table" requiredConfigOptions) by (cbn; tauto).
  assert (Habsent : ~ In "table" (configKeys MoreExamples.incomplete_config)).
  { cbn. intros [Hk|[Hk|[Hk|[]]]]; discriminate Hk. }
  split; [exact Hreq|]. split; [exact Habsent|].
  exact (setup_missing_option (H := RefHost.host) MoreExamples.incomplete_config _
           "table" Hreq Habsent).
Defined.

(** X6.  When the count statement fails, startup throws an error whose
    message starts with [Query failed because: ], after sending that one
    statement: nothing is stored, the counter is not set and no job is
    scheduled, so the import never starts. *)
Theorem setup_count_failure `{Host} cfg w :
  config_complete cfg = true ->
  query_failed (count_response cfg w) = true ->
  let setup := setupPlugin cfg w in
  (exists detail, fst setup = Throws ("Query failed because: " +:+ detail))
  /\ sent (snd setup) = sent w ++ [count_query cfg]
  /\ storage (snd setup) = storage w
  /\ cache (snd setup) = cache w
  /\ scheduled (snd setup) = scheduled w.
Proof.
  intros Hcfg Hfail setup. subst setup.
  rewrite setupPlugin_paths, (find_missing_none cfg Hcfg). cbv zeta. rewrite Hfail.
  split; [eexists; reflexivity|]. repeat split.
Qed.

Lemma setup_count_failure_witness :
  let cfg := Examples.example_config 10 "default" CONTINUOUS in
  let w := Examples.world Examples.unreachable ∅ ∅ in
  let setup := setupPlugin (H := RefHost.host) cfg w in
  config_complete cfg = true /\ query_failed (count_response cfg w) = true
  /\ fst setup = Throws "Query failed because: Error: Network error"
  /\ (exists detail, fst setup = Throws ("Query failed because: " +:+ detail))
  /\ sent (snd setup) = sent w ++ [count_query cfg]
  /\ storage (snd setup) = storage w
  /\ cache (snd setup) = cache w
  /\ scheduled (snd setup) = scheduled w.
Proof.
  cbv zeta. split; [reflexivity|]. split; [reflexivity|].
  split; [vm_compute; reflexivity|].
  apply (setup_count_failure (H := RefHost.host)); reflexivity.
Defined.

(** X7.  With a frequency of [0] startup throws only after the count and
    the offset restore: by then the counter has been overwritten, but no
    job is scheduled. *)
Theorem setup_zero_frequency `{Host} cfg w row0 rest :
  config_complete cfg = true ->
  queryResult (count_response cfg w) = Some (row0 :: rest) ->
  (frequency cfg == 0)%Q ->
  let setup := setupPlugin cfg w in
  fst setup = Throws "Invalid frequency input! Please insert a number in seconds."
  /\ scheduled (snd setup) = scheduled w
  /\ cache (snd setup) !! REDIS_OFFSET_KEY
     = Some (default 0%Q (storage w !! REDIS_OFFSET_KEY) / batchSize cfg)%Q.
Proof.
  intros Hcfg Hrows Hfreq setup. subst setup.
  rewrite setupPlugin_paths, (find_missing_none cfg Hcfg). cbv zeta.
  unfold count_response in *. rewrite (rows_not_failed _ _ Hrows), Hrows.
  change (default [] (Some (row0 :: rest))) with (row0 :: rest). cbv iota.
  apply Qeq_bool_iff in Hfreq. rewrite Hfreq. cbn [fst snd].
  split; [reflexivity|]. split.
  - destruct (_ && _); reflexivity.
  - cbn [cache with_cache]. apply lookup_insert_eq.
Qed.

Lemma setup_zero_frequency_witness :
  let cfg := MoreExamples.zero_frequency_config in
  let w := Examples.world (Examples.serving [Examples.click_row])
             {[ REDIS_OFFSET_KEY := 20%Q ]} ∅ in
  let row0 := [("ROW_COUNT", VNum 1)] in
  let setup := setupPlugin (H := RefHost.host) cfg w in
  config_complete cfg = true
  /\ queryResult (count_response cfg w) = Some [row0]
  /\ (frequency cfg == 0)%Q
  /\ fst setup = Throws "Invalid frequency input! Please insert a number in seconds."
  /\ scheduled (snd setup) = scheduled w
  /\ cache (snd setup) !! REDIS_OFFSET_KEY
     = Some (default 0%Q (storage w !! REDIS_OFFSET_KEY) / batchSize cfg)%Q.
Proof.
  cbv zeta. split; [reflexivity|]. split; [reflexivity|]. split; [reflexivity|].
  apply (setup_zero_frequency (H := RefHost.host) MoreExamples.zero_frequency_config _
           [("ROW_COUNT", VNum 1)] []); reflexivity.
Defined.

(** X8.  With a complete config, a count that returns a row and a
    non-zero frequency, startup succeeds: it sends the count statement
    only, loads the stored offset (default [0]) without changing it, and
    schedules exactly one job, a newly started batch after [frequency]
    seconds.  In continuous mode it writes nothing to the storage. *)
Theorem setup_success `{Host} cfg w row0 rest :
  config_complete cfg = true ->
  queryResult (count_response cfg w) = Some (row0 :: rest) ->
  ~ (frequency cfg == 0)%Q ->
  let setup := setupPlugin cfg w in
  exists g,
    fst setup = Normal g
    /\ initialOffset g = default 0%Q (storage w !! REDIS_OFFSET_KEY)
    /\ scheduled (snd setup) = scheduled w ++ [(fresh, frequency cfg)]
    /\ sent (snd setup) = sent w ++ [count_query cfg]
    /\ storage (snd setup) !! REDIS_OFFSET_KEY = storage w !! REDIS_OFFSET_KEY
    /\ (importMechanism cfg = CONTINUOUS ->
        totalRows g = counted row0 /\ storage (snd setup) = storage w).
Proof.
  intros Hcfg Hrows Hfreq setup. subst setup.
  assert (Hkeys : REDIS_TOTAL_ROWS_KEY <> REDIS_OFFSET_KEY) by discriminate.
  rewrite setupPlugin_paths, (find_missing_none cfg Hcfg). cbv zeta.
  unfold count_response in *. rewrite (rows_not_failed _ _ Hrows), Hrows.
  change (default [] (Some (row0 :: rest))) with (row0 :: rest). cbv iota.
  destruct (Qeq_bool (frequency cfg) 0) eqn:Hz;
    [apply Qeq_bool_iff in Hz; contradiction|].
  eexists. split; [reflexivity|]. cbn [fst snd initialOffset totalRows].
  split; [reflexivity|].
  destruct (importMechanism cfg); cbn [IMPORT_MECHANISMS_eqb andb].
  - repeat split.
  - destruct (negb _); cbn; rewrite ?(lookup_insert_ne _ _ _ _ Hkeys);
      (repeat split; try reflexivity); discriminate.
Qed.

Lemma setup_success_witness :
  let cfg := Examples.example_config 10 "default" CONTINUOUS in
  let w := Examples.world (Examples.serving Examples.thirty_rows)
             {[ REDIS_OFFSET_KEY := 20%Q ]} ∅ in
  let row0 := [("ROW_COUNT", VNum 30)] in
  let setup := setupPlugin (H := RefHost.host) cfg w in
  config_complete cfg = true
  /\ queryResult (count_response cfg w) = Some [row0]
  /\ ~ (frequency cfg == 0)%Q
  /\ exists g,
       fst setup = Normal g
       /\ initialOffset g = default 0%Q (storage w !! REDIS_OFFSET_KEY)
       /\ scheduled (snd setup) = scheduled w ++ [(fresh, frequency cfg)]
       /\ sent (snd setup) = sent w ++ [count_query cfg]
       /\ storage (snd setup) !! REDIS_OFFSET_KEY = storage w !! REDIS_OFFSET_KEY
       /\ (importMechanism cfg = CONTINUOUS ->
           totalRows g = counted (H := RefHost.host) row0
           /\ storage (snd setup) = storage w).
Proof.
  cbv zeta. split; [reflexivity|]. split; [reflexivity|]. split; [discriminate|].
  apply (setup_success (H := RefHost.host)
           (Examples.example_config 10 "default" CONTINUOUS) _
           [("ROW_COUNT", VNum 30)] []); [reflexivity | reflexivity | discriminate].
Defined.

(** After a successful startup in historical mode the storage holds the
    snapshot that startup uses as [totalRows]; a truthy snapshot found in
    the storage is the one used. *)
Lemma historical_setup_snapshot `{Host} cfg w g :
  importMechanism cfg = HISTORICAL ->
  fst (setupPlugin cfg w) = Normal g ->
  storage (snd (setupPlugin cfg w)) !! REDIS_TOTAL_ROWS_KEY = Some (totalRows g)
  /\ forall n, stored_snapshot w = Some n -> totalRows g = n.
Proof.
  intros Hmode. rewrite setupPlugin_paths.
  destruct (List.find _ _); [discriminate|]. cbv zeta.
  destruct (query_failed _); [discriminate|].
  destruct (default [] _) as [|row0 rest]; [discriminate|].
  destruct (Qeq_bool (frequency cfg) 0); [discriminate|].
  rewrite Hmode. cbn [IMPORT_MECHANISMS_eqb andb fst snd]. intros [= <-].
  cbn [totalRows]. unfold stored_snapshot.
  destruct (storage w !! REDIS_TOTAL_ROWS_KEY) as [n|] eqn:Hn.
  - destruct (Qeq_bool n 0).
    + cbn. rewrite lookup_insert_eq. split; [reflexivity | discriminate].
    + cbn. split; [exact Hn | intros m [= <-]; reflexivity].
  - cbn. rewrite lookup_insert_eq. split; [reflexivity | discriminate].
Qed.

(** X9.  In historical mode the snapshot taken by one startup is the
    [totalRows] of every later startup that reads the same storage, however
    many rows the table then holds, as long as that snapshot is not [0]. *)
Theorem historical_snapshot_kept `{Host} cfg w g cfg2 w2 g2 :
  importMechanism cfg = HISTORICAL ->
  importMechanism cfg2 = HISTORICAL ->
  fst (setupPlugin cfg w) = Normal g ->
  ~ (totalRows g == 0)%Q ->
  storage w2 !! REDIS_TOTAL_ROWS_KEY
    = storage (snd (setupPlugin cfg w)) !! REDIS_TOTAL_ROWS_KEY ->
  fst (setupPlugin cfg2 w2) = Normal g2 ->
  totalRows g2 = totalRows g.
Proof.
  intros Hmode Hmode2 Hfirst Hnz Hsame Hsecond.
  destruct (historical_setup_snapshot cfg w g Hmode Hfirst) as [Hstored _].
  destruct (historical_setup_snapshot cfg2 w2 g2 Hmode2 Hsecond) as [_ Hused].
  apply Hused. unfold stored_snapshot. rewrite Hsame, Hstored.
  destruct (Qeq_bool (totalRows g) 0) eqn:Hz; [|reflexivity].
  apply Qeq_bool_iff in Hz. contradiction.
Qed.

Lemma historical_snapshot_kept_witness :
  let cfg := Examples.example_config 10 "default" HISTORICAL in
  let w := Examples.world (Examples.serving [Examples.click_row; Examples.click_row]) ∅ ∅ in
  let g := {| initialOffset := 0%Q; totalRows := 2%Q |} in
  let w2 := Examples.world (Examples.serving Examples.thirty_rows)
              (storage (snd (setupPlugin (H := RefHost.host) cfg w))) ∅ in
  importMechanism cfg = HISTORICAL
  /\ fst (setupPlugin (H := RefHost.host) cfg w) = Normal g
  /\ ~ (totalRows g == 0)%Q
  /\ storage w2 !! REDIS_TOTAL_ROWS_KEY
       = storage (snd (setupPlugin (H := RefHost.host) cfg w)) !! REDIS_TOTAL_ROWS_KEY
  /\ fst (setupPlugin (H := RefHost.host) cfg w2) = Normal g
  /\ totalRows g = totalRows g.
Proof.
  cbv zeta. split; [reflexivity|]. split; [vm_compute; reflexivity|].
  split; [discriminate|]. split; [reflexivity|]. split; [vm_compute; reflexivity|].
  apply (historical_snapshot_kept (H := RefHost.host)
           (Examples.example_config 10 "default" HISTORICAL)
           (Examples.world (Examples.serving [Examples.click_row; Examples.click_row]) ∅ ∅)
           {| initialOffset := 0%Q; totalRows := 2%Q |}
           (Examples.example_config 10 "default" HISTORICAL)
           (Examples.world (Examples.serving Examples.thirty_rows)
              (storage (snd (setupPlugin (H := RefHost.host)
                               (Examples.example_config 10 "default" HISTORICAL)
                               (Examples.world
                                  (Examples.serving [Examples.click_row; Examples.click_row])
                                  ∅ ∅)))) ∅)
           {| initialOffset := 0%Q; totalRows := 2%Q |});
    [reflexivity | reflexivity | vm_compute; reflexivity | discriminate | reflexivity
    | vm_compute; reflexivity].
Defined.

(** ** The checkpoint over a process lifetime *)

(** X10.  Teardown stores the smaller of the worker offset (the counter
    times the batch size) and [totalRows]: the stored offset never exceeds
    either.  It leaves the counter and the scheduled jobs alone and clears
    the pool. *)
Theorem teardown_stores_min meta w :
  let workerOffset := (counter w * batchSize (config meta))%Q in
  let after := snd (teardownPlugin meta w) in
  exists v,
    storage after !! REDIS_OFFSET_KEY = Some v
    /\ (v <= totalRows (global meta))%Q /\ (v <= workerOffset)%Q
    /\ (v = workerOffset \/ v = totalRows (global meta))
    /\ cache after = cache w /\ scheduled after = scheduled w
    /\ poolCleared after = true.
Proof.
  cbv zeta. rewrite teardownPlugin_spec. cbv zeta.
  cbn [snd storage cache scheduled poolCleared with_poolCleared with_storage].
  rewrite lookup_insert_eq.
  destruct (Qle_bool (counter w * batchSize (config meta)) (totalRows (global meta)))
    eqn:Hle; cbn [negb]; eexists; (split; [reflexivity|]).
  - apply Qle_bool_iff in Hle. split; [exact Hle|]. split; [apply Qle_refl|].
    split; [left; reflexivity|]. repeat split.
  - assert (Hlt : (totalRows (global meta) < counter w * batchSize (config meta))%Q).
    { apply Qnot_le_lt. intros Hc. apply Qle_bool_iff in Hc. congruence. }
    split; [apply Qle_refl|]. split; [apply Qlt_le_weak; exact Hlt|].
    split; [right; reflexivity|]. repeat split.
Qed.

(** Over [n] consecutive successful batches the counter goes up by [n] and
    the storage is not written. *)
Lemma fresh_batches_counter `{Host} n meta : forall w r,
  fresh_batches n meta w = Some r ->
  (counter (snd r) == counter w + inject_Z (Z.of_nat n))%Q
  /\ storage (snd r) = storage w.
Proof.
  induction n as [|n IH]; intros w r Hrun.
  - injection Hrun as <-. cbn. split; [ring | reflexivity].
  - cbn [fresh_batches] in Hrun.
    destruct (query_failed _); [discriminate|].
    destruct (importAndIngestEvents fresh meta w) as [[[]|e] w1] eqn:Hstep;
      try discriminate.
    destruct (finished_run _ _ _ _ Hstep) as (Hcache & Hstorage & _).
    destruct (last_offset_sent w1); [|discriminate]. cbn in Hrun.
    destruct (fresh_batches n meta w1) as [[offs1 w2]|] eqn:Hrest; [|discriminate].
    cbn in Hrun. injection Hrun as <-. cbn [snd].
    destruct (IH _ _ Hrest) as [Hcount Hstore]. cbn [snd] in Hcount, Hstore.
    split; [|congruence].
    rewrite Hcount. unfold counter at 1. rewrite Hcache, lookup_insert_eq.
    cbn [from_option id]. rewrite Nat2Z.inj_succ, <- Z.add_1_r, inject_Z_plus.
    change (inject_Z 1) with 1%Q. ring.
Qed.

(** X11.  One process lifetime, from startup to teardown: when startup
    loaded the offset [O] and [n] consecutive batches then succeeded,
    teardown stores [O + n * batchSize], provided this does not exceed
    [totalRows], the batch size is a non-zero integer [size] and [O] is a
    multiple [k * size] of it (the quotient that startup takes is then the
    integer [k], on doubles as well). *)
Theorem checkpoint_after_batches `{Host} cfg w g att n r (k size : Z) :
  let meta := {| global := g; config := cfg; attachments := att |} in
  let O := default 0%Q (storage w !! REDIS_OFFSET_KEY) in
  fst (setupPlugin cfg w) = Normal g ->
  ~ (batchSize cfg == 0)%Q ->
  (batchSize cfg == inject_Z size)%Q ->
  (O == inject_Z (k * size))%Q ->
  fresh_batches n meta (snd (setupPlugin cfg w)) = Some r ->
  (O + inject_Z (Z.of_nat n) * batchSize cfg <= totalRows g)%Q ->
  exists v,
    storage (snd (teardownPlugin meta (snd r))) !! REDIS_OFFSET_KEY = Some v
    /\ (v == O + inject_Z (Z.of_nat n) * batchSize cfg)%Q.
Proof.
  intros meta O Hsetup Hsize _ _ Hrun Hle.
  destruct (setupPlugin cfg w) as [c w1] eqn:Hs. cbn [fst snd] in *. subst c.
  destruct (setupPlugin_restores _ _ _ _ Hs) as [Hinit Hcache].
  destruct (fresh_batches_counter n meta w1 r Hrun) as [Hcount _].
  assert (Hworker : (counter (snd r) * batchSize cfg
                     == O + inject_Z (Z.of_nat n) * batchSize cfg)%Q).
  { rewrite Hcount. unfold counter. rewrite Hcache, Hinit. cbn [from_option id].
    fold O. field. exact Hsize. }
  rewrite teardownPlugin_spec. cbv zeta.
  cbn [snd storage with_poolCleared with_storage global config meta].
  rewrite lookup_insert_eq.
  assert (Hbool : Qle_bool (counter (snd r) * batchSize cfg) (totalRows g) = true).
  { apply Qle_bool_iff. rewrite Hworker. exact Hle. }
  rewrite Hbool. cbn [negb]. eexists. split; [reflexivity | exact Hworker].
Qed.

Lemma checkpoint_after_batches_witness :
  let cfg := Examples.example_config 10 "default" CONTINUOUS in
  let w := Examples.world (Examples.serving Examples.thirty_rows)
             {[ REDIS_OFFSET_KEY := 10%Q ]} ∅ in
  let g := {| initialOffset := 10%Q; totalRows := 30%Q |} in
  let meta := {| global := g; config := cfg; attachments := Examples.no_attachments |} in
  let O := default 0%Q (storage w !! REDIS_OFFSET_KEY) in
  let r := default ([], w)
             (fresh_batches (H := RefHost.host) 1 meta
                (snd (setupPlugin (H := RefHost.host) cfg w))) in
  fst (setupPlugin (H := RefHost.host) cfg w) = Normal g
  /\ ~ (batchSize cfg == 0)%Q
  /\ (batchSize cfg == inject_Z 10)%Q
  /\ (O == inject_Z (1 * 10))%Q
  /\ fresh_batches (H := RefHost.host) 1 meta (snd (setupPlugin (H := RefHost.host) cfg w))
     = Some r
  /\ (O + inject_Z (Z.of_nat 1) * batchSize cfg <= totalRows g)%Q
  /\ exists v,
       storage (snd (teardownPlugin meta (snd r))) !! REDIS_OFFSET_KEY = Some v
       /\ (v == O + inject_Z (Z.of_nat 1) * batchSize cfg)%Q.
Proof.
  cbv zeta. split; [vm_compute; reflexivity|]. split; [discriminate|].
  split; [reflexivity|]. split; [vm_compute; reflexivity|].
  split; [vm_compute; reflexivity|]. split; [vm_compute; discriminate|].
  apply (checkpoint_after_batches (H := RefHost.host)
           (Examples.example_config 10 "default" CONTINUOUS)
           (Examples.world (Examples.serving Examples.thirty_rows)
              {[ REDIS_OFFSET_KEY := 10%Q ]} ∅)
           {| initialOffset := 10%Q; totalRows := 30%Q |} Examples.no_attachments 1
           _ 1 10);
    [vm_compute; reflexivity | discriminate | reflexivity | vm_compute; reflexivity
    | vm_compute; reflexivity | vm_compute; discriminate].
Defined.

(** ** Batches *)

Lemma transform_rows_normal `{Host} name att rows : forall evs,
  transform_rows name att rows = Normal evs ->
  Forall2 (fun row e => transform_row name att row = Normal e) rows evs.
Proof.
  induction rows as [|row rest IH]; intros evs Hrows.
  - injection Hrows as <-. constructor.
  - change (transform_rows name att (row :: rest))
      with (match transform_row name att row with
            | Throws e' => Throws e'
            | Normal ev =>
                match transform_rows name att rest with
                | Throws e' => Throws e'
                | Normal evs => Normal (ev :: evs)
                end
            end) in Hrows.
    destruct (transform_row name att row) as [ev|e] eqn:Hrow; [|discriminate].
    destruct (transform_rows name att rest) as [evs'|e]; [|discriminate].
    injection Hrows as <-. constructor; [exact Hrow | apply IH; reflexivity].
Qed.

Lemma transform_rows_throws_at `{Host} name att pre row post e :
  Forall (fun r => exists ev, transform_row name att r = Normal ev) pre ->
  transform_row name att row = Throws e ->
  transform_rows name att (pre ++ row :: post) = Throws e.
Proof.
  intros Hpre Hrow. induction Hpre as [|r pre [ev Hr] _ IH].
  - apply transform_rows_throws. exact Hrow.
  - change (transform_rows name att ((r :: pre) ++ row :: post))
      with (match transform_row name att r with
            | Throws e' => Throws e'
            | Normal ev =>
                match transform_rows name att (pre ++ row :: post) with
                | Throws e' => Throws e'
                | Normal evs => Normal (ev :: evs)
                end
            end).
    rewrite Hr, IH. reflexivity.
Qed.

(** X12.  A batch is captured as a whole or not at all: when the
    transformation throws on any row of a fetched batch, the run throws
    that error and no event of the batch is captured, not even those of the
    rows before; the counter is not advanced and nothing is scheduled. *)
Theorem batch_is_all_or_nothing `{Host} p meta w pre row post e :
  abandons p = false ->
  historical_done meta (job_offset p meta w) = false ->
  queryResult (fetch meta w (job_offset p meta w)) = Some (pre ++ row :: post) ->
  Forall (fun r => exists ev,
            transform_row (transformationName (config meta)) (attachments meta) r
            = Normal ev) pre ->
  transform_row (transformationName (config meta)) (attachments meta) row = Throws e ->
  let run := importAndIngestEvents p meta w in
  fst run = Throws e
  /\ captured (snd run) = captured w
  /\ cache (snd run) = cache w
  /\ scheduled (snd run) = scheduled w.
Proof.
  intros Ha Hd Hrows Hpre Hrow run. subst run.
  rewrite importAndIngestEvents_paths. cbv zeta. rewrite Ha, Hd, Hrows.
  change (default [] (Some (pre ++ row :: post))) with (pre ++ row :: post).
  rewrite (transform_rows_throws_at _ _ _ _ _ _ Hpre Hrow). cbn [fst snd].
  unfold after_fetch, fetch in *. rewrite (rows_not_failed _ _ Hrows).
  repeat split.
Qed.

Lemma batch_is_all_or_nothing_witness :
  let meta := Examples.example_meta 0 30 10 "default" CONTINUOUS in
  let bad_row : Row := [("event", VStr "click"); ("properties", VStr "{")] in
  let w := Examples.world (Examples.serving [Examples.click_row; bad_row]) ∅ ∅ in
  let run := importAndIngestEvents (H := RefHost.host) fresh meta w in
  abandons fresh = false
  /\ historical_done meta (job_offset fresh meta w) = false
  /\ queryResult (fetch meta w (job_offset fresh meta w))
     = Some ([Examples.click_row] ++ bad_row :: [])
  /\ Forall (fun r => exists ev,
               transform_row (H := RefHost.host) (transformationName (config meta))
                 (attachments meta) r = Normal ev) [Examples.click_row]
  /\ transform_row (H := RefHost.host) (transformationName (config meta))
       (attachments meta) bad_row = Throws "SyntaxError"
  /\ fst run = Throws "SyntaxError"
  /\ captured (snd run) = captured w
  /\ cache (snd run) = cache w
  /\ scheduled (snd run) = scheduled w.
Proof.
  cbv zeta.
  assert (Hpre : Forall (fun r => exists ev,
                    transform_row (H := RefHost.host) "default" Examples.no_attachments r
                    = Normal ev) [Examples.click_row]).
  { constructor; [|constructor]. eexists. vm_compute. reflexivity. }
  split; [reflexivity|]. split; [reflexivity|]. split; [reflexivity|].
  split; [exact Hpre|]. split; [vm_compute; reflexivity|].
  apply (batch_is_all_or_nothing (H := RefHost.host) fresh
           (Examples.example_meta 0 30 10 "default" CONTINUOUS) _
           [Examples.click_row] [("event", VStr "click"); ("properties", VStr "{")] []);
    [reflexivity | reflexivity | reflexivity | exact Hpre | vm_compute; reflexivity].
Defined.

(** X13.  A run whose fetch and transformations succeed captures one event
    per fetched row, in row order, each the transformation of its row, and
    schedules exactly one job: a newly started batch after [frequency]
    seconds. *)
Theorem successful_batch_captures_in_order `{Host} p meta w rows evs :
  abandons p = false ->
  historical_done meta (job_offset p meta w) = false ->
  queryResult (fetch meta w (job_offset p meta w)) = Some rows ->
  transform_rows (transformationName (config meta)) (attachments meta) rows = Normal evs ->
  let run := importAndIngestEvents p meta w in
  fst run = Normal FINISHED
  /\ Forall2 (fun row e =>
                transform_row (transformationName (config meta)) (attachments meta) row
                = Normal e) rows evs
  /\ captured (snd run) = captured w ++ map (fun e => (event e, properties e)) evs
  /\ scheduled (snd run) = scheduled w ++ [(fresh, frequency (config meta))].
Proof.
  intros Ha Hd Hrows Hevs run. subst run.
  rewrite importAndIngestEvents_paths. cbv zeta. rewrite Ha, Hd, Hrows.
  change (default [] (Some rows)) with rows. rewrite Hevs. cbn [fst snd].
  split; [reflexivity|]. split; [apply transform_rows_normal; exact Hevs|].
  unfold fetch in Hrows. pose proof (rows_not_failed _ _ Hrows) as Hok.
  split.
  - unfold after_ingest. cbn [captured with_scheduled with_cache with_console].
    destruct (capture_all_frame evs (after_fetch p meta w (job_offset p meta w)))
      as (_ & _ & _ & _ & ->).
    rewrite captured_after_fetch. reflexivity.
  - rewrite scheduled_after_ingest, (scheduled_after_fetch_ok _ _ _ _ Hok). reflexivity.
Qed.

Lemma successful_batch_captures_in_order_witness :
  let meta := Examples.example_meta 0 30 10 "default" CONTINUOUS in
  let w := Examples.world (Examples.serving [Examples.click_row; Examples.click_row]) ∅ ∅ in
  let rows := [Examples.click_row; Examples.click_row] in
  let evs := [Examples.click_event; Examples.click_event] in
  let run := importAndIngestEvents (H := RefHost.host) fresh meta w in
  abandons fresh = false
  /\ historical_done meta (job_offset fresh meta w) = false
  /\ queryResult (fetch meta w (job_offset fresh meta w)) = Some rows
  /\ transform_rows (H := RefHost.host) (transformationName (config meta))
       (attachments meta) rows = Normal evs
  /\ fst run = Normal FINISHED
  /\ Forall2 (fun row e =>
                transform_row (H := RefHost.host) (transformationName (config meta))
                  (attachments meta) row = Normal e) rows evs
  /\ captured (snd run) = captured w ++ map (fun e => (event e, properties e)) evs
  /\ scheduled (snd run) = scheduled w ++ [(fresh, frequency (config meta))].
Proof.
  cbv zeta. split; [reflexivity|]. split; [reflexivity|]. split; [reflexivity|].
  split; [vm_compute; reflexivity|].
  apply (successful_batch_captures_in_order (H := RefHost.host) fresh
           (Examples.example_meta 0 30 10 "default" CONTINUOUS));
    [reflexivity | reflexivity | reflexivity | vm_compute; reflexivity].
Defined.

(** X14.  A fetch that returns no row never calls the transformation: the
    run reaches its end whatever transformation is configured (even one
    that is not in the table, or one whose attachment is missing), captures
    nothing, and still advances the counter by one and schedules the next
    batch. *)
Theorem empty_batch_advances `{Host} p meta w :
  abandons p = false ->
  historical_done meta (job_offset p meta w) = false ->
  queryResult (fetch meta w (job_offset p meta w)) = Some [] ->
  let run := importAndIngestEvents p meta w in
  fst run = Normal FINISHED
  /\ captured (snd run) = captured w
  /\ cache (snd run) = <[REDIS_OFFSET_KEY := (counter w + 1)%Q]> (cache w)
  /\ scheduled (snd run) = scheduled w ++ [(fresh, frequency (config meta))].
Proof.
  intros Ha Hd Hrows run. subst run.
  rewrite importAndIngestEvents_paths. cbv zeta. rewrite Ha, Hd, Hrows.
  cbn [from_option id transform_rows fst snd].
  unfold fetch in Hrows. pose proof (rows_not_failed _ _ Hrows) as Hok.
  split; [reflexivity|]. split.
  - unfold after_ingest. cbn. apply captured_after_fetch.
  - split.
    + rewrite cache_after_ingest. unfold counter. rewrite cache_after_fetch. reflexivity.
    + rewrite scheduled_after_ingest, (scheduled_after_fetch_ok _ _ _ _ Hok). reflexivity.
Qed.

Lemma empty_batch_advances_witness :
  let meta := Examples.example_meta 0 30 10 "Predefined Fields" CONTINUOUS in
  let w := Examples.world (Examples.serving Examples.thirty_rows) ∅
             {[ REDIS_OFFSET_KEY := 3%Q ]} in
  let run := importAndIngestEvents (H := RefHost.host) fresh meta w in
  abandons fresh = false
  /\ historical_done meta (job_offset fresh meta w) = false
  /\ queryResult (fetch meta w (job_offset fresh meta w)) = Some []
  /\ fst run = Normal FINISHED
  /\ captured (snd run) = captured w
  /\ cache (snd run) = <[REDIS_OFFSET_KEY := (counter w + 1)%Q]> (cache w)
  /\ scheduled (snd run) = scheduled w ++ [(fresh, frequency (config meta))].
Proof.
  cbv zeta. split; [reflexivity|]. split; [reflexivity|]. split; [reflexivity|].
  apply (empty_batch_advances (H := RefHost.host)); reflexivity.
Defined.

(** X15.  The historical test is strict: in historical mode a newly started
    run whose offset equals [totalRows] does not stop; it sends the batch
    statement at that offset. *)
Theorem historical_boundary_still_fetches `{Host} p meta w :
  abandons p = false ->
  (job_offset p meta w == totalRows (global meta))%Q ->
  let run := importAndIngestEvents p meta w in
  fst run <> Normal TERMINATED
  /\ sent (snd run) = sent w ++ [batch_query meta (job_offset p meta w)].
Proof.
  intros Ha Heq run. subst run.
  assert (Hd : historical_done meta (job_offset p meta w) = false).
  { destruct (historical_done meta (job_offset p meta w)) eqn:Hd; [|reflexivity].
    apply historical_done_spec in Hd as [_ Hlt]. rewrite Heq in Hlt.
    exfalso. exact (Qlt_irrefl _ Hlt). }
  split; [|apply sent_when_fetching; assumption].
  rewrite importAndIngestEvents_paths. cbv zeta. rewrite Ha, Hd.
  destruct (transform_rows _ _ _); discriminate.
Qed.

Lemma historical_boundary_still_fetches_witness :
  let meta := Examples.example_meta 0 30 10 "default" HISTORICAL in
  let w := Examples.world (Examples.serving Examples.thirty_rows) ∅
             {[ REDIS_OFFSET_KEY := 3%Q ]} in
  let run := importAndIngestEvents (H := RefHost.host) fresh meta w in
  abandons fresh = false
  /\ (job_offset fresh meta w == totalRows (global meta))%Q
  /\ fst run <> Normal TERMINATED
  /\ sent (snd run) = sent w ++ [batch_query meta (job_offset fresh meta w)].
Proof.
  cbv zeta. split; [reflexivity|]. split; [reflexivity|].
  apply (historical_boundary_still_fetches (H := RefHost.host)); reflexivity.
Defined.

Lemma nth_retry_fields n :
  offset (nth_retry n) = None /\ retriesPerformedSoFar (nth_retry n) = Z.of_nat n.
Proof.
  induction n as [|n [IHo IHr]]; [split; reflexivity|].
  change (nth_retry (S n)) with (retry_of (nth_retry n)). unfold retry_of.
  cbn [offset retriesPerformedSoFar]. split; [exact IHo | lia].
Qed.

(** X16.  The retries that follow a newly started batch are never
    abandoned.  The retry payload copies the payload it comes from, which
    carries no offset, so after any number [n] of failed attempts in a row
    (15 and more included) the run fetches again at the counter's offset
    and, when the fetch fails, schedules retry [n + 1] after [3 * 2^n]
    seconds. *)
Theorem retry_chain_is_never_abandoned `{Host} n meta w :
  historical_done meta (effectiveOffset meta w) = false ->
  query_failed (fetch meta w (effectiveOffset meta w)) = true ->
  let run := importAndIngestEvents (nth_retry n) meta w in
  abandons (nth_retry n) = false
  /\ fst run = Normal FINISHED
  /\ sent (snd run) = sent w ++ [batch_query meta (effectiveOffset meta w)]
  /\ scheduled (snd run) =
       scheduled w ++ [(nth_retry (S n), (2 ^ Z.of_nat n * 3)%Q);
                       (fresh, frequency (config meta))].
Proof.
  intros Hd Hf run. subst run.
  destruct (nth_retry_fields n) as [Hoff Hret].
  assert (Ht : truthy_offset (nth_retry n) = None)
    by (unfold truthy_offset; rewrite Hoff; reflexivity).
  assert (Ha : abandons (nth_retry n) = false)
    by (unfold abandons; rewrite Ht; reflexivity).
  assert (Hjob : job_offset (nth_retry n) meta w = effectiveOffset meta w)
    by (unfold job_offset; rewrite Ht; reflexivity).
  rewrite <- Hjob in Hd, Hf.
  destruct (failed_fetch_two_successors _ _ _ Ha Hd Hf) as (Hexit & Hsched & _).
  split; [exact Ha|]. split; [exact Hexit|]. split.
  - rewrite <- Hjob. apply sent_when_fetching; assumption.
  - rewrite Hsched, Hret. reflexivity.
Qed.

Lemma retry_chain_is_never_abandoned_witness :
  let meta := Examples.example_meta 0 30 10 "default" CONTINUOUS in
  let w := Examples.world Examples.unreachable ∅ ∅ in
  let run := importAndIngestEvents (H := RefHost.host) (nth_retry 15) meta w in
  historical_done meta (effectiveOffset meta w) = false
  /\ query_failed (fetch meta w (effectiveOffset meta w)) = true
  /\ abandons (nth_retry 15) = false
  /\ fst run = Normal FINISHED
  /\ sent (snd run) = sent w ++ [batch_query meta (effectiveOffset meta w)]
  /\ scheduled (snd run) =
       scheduled w ++ [(nth_retry 16, (2 ^ Z.of_nat 15 * 3)%Q);
                       (fresh, frequency (config meta))].
Proof.
  cbv zeta. split; [reflexivity|]. split; [reflexivity|].
  apply (retry_chain_is_never_abandoned (H := RefHost.host) 15); reflexivity.
Defined.

(** X17.  A run whose payload carries a non-zero offset, with fewer than
    15 retries performed, fetches at that offset whatever the counter
    holds; when it reaches its end it advances the counter all the same. *)
Theorem payload_offset_is_refetched `{Host} p meta w o :
  offset p = Some o ->
  ~ (o == 0)%Q ->
  (retriesPerformedSoFar p < 15)%Z ->
  historical_done meta o = false ->
  let run := importAndIngestEvents p meta w in
  sent (snd run) = sent w ++ [batch_query meta o]
  /\ (fst run = Normal FINISHED ->
      cache (snd run) = <[REDIS_OFFSET_KEY := (counter w + 1)%Q]> (cache w)).
Proof.
  intros Hp Hnz Hr Hd run. subst run.
  assert (Ht : truthy_offset p = Some o).
  { unfold truthy_offset. rewrite Hp. destruct (Qeq_bool o 0) eqn:Hz; [|reflexivity].
    apply Qeq_bool_iff in Hz. contradiction. }
  assert (Ha : abandons p = false)
    by (unfold abandons; rewrite Ht; apply Z.leb_gt; exact Hr).
  assert (Hjob : job_offset p meta w = o) by (unfold job_offset; rewrite Ht; reflexivity).
  split.
  - rewrite <- Hjob. apply sent_when_fetching; [exact Ha | rewrite Hjob; exact Hd].
  - destruct (importAndIngestEvents p meta w) as [c w'] eqn:Hrun. cbn [fst snd].
    intros ->. apply (finished_run _ _ _ _ Hrun).
Qed.

Lemma payload_offset_is_refetched_witness :
  let meta := Examples.example_meta 0 30 10 "default" CONTINUOUS in
  let w := Examples.world (Examples.serving Examples.thirty_rows) ∅ ∅ in
  let p := {| offset := Some 20%Q; retriesPerformedSoFar := 3 |} in
  let run := importAndIngestEvents (H := RefHost.host) p meta w in
  offset p = Some 20%Q /\ ~ (20 == 0)%Q /\ (retriesPerformedSoFar p < 15)%Z
  /\ historical_done meta 20%Q = false
  /\ sent (snd run) = sent w ++ [batch_query meta 20%Q]
  /\ (fst run = Normal FINISHED ->
      cache (snd run) = <[REDIS_OFFSET_KEY := (counter w + 1)%Q]> (cache w)).
Proof.
  cbv zeta. split; [reflexivity|]. split; [discriminate|]. split; [reflexivity|].
  split; [reflexivity|].
  apply (payload_offset_is_refetched (H := RefHost.host)
           {| offset := Some 20%Q; retriesPerformedSoFar := 3 |});
    [reflexivity | discriminate | reflexivity | reflexivity].
Defined.

(** ** More on the transformations *)

(** X18.  When the [properties] column parses to an object, the default
    transformation takes the event name from the [event] column, always
    tags [source] as [snowflake_import] (whatever the parsed object says),
    lets every other key of the parsed object through, and fills
    [timestamp] and [distinct_id] from the columns of the row only where
    the parsed object has no such key. *)
Theorem default_transform_merges `{Host} att row p :
  JSON_parse (row_get row "properties") = Some (VObj p) ->
  exists ev,
    transform_row "default" att row = Normal ev
    /\ event ev = row_get row "event"
    /\ properties ev !! "source" = Some (VStr "snowflake_import")
    /\ (forall k v, k <> "source" -> p !! k = Some v -> properties ev !! k = Some v)
    /\ (p !! "timestamp" = None ->
        properties ev !! "timestamp" = Some (row_get row "timestamp"))
    /\ (p !! "distinct_id" = None ->
        properties ev !! "distinct_id" = Some (row_get row "distinct_id")).
Proof.
  intros Hparse. unfold transform_row.
  change (transformations "default")
    with (Some {| author := "yakkomajuri"; transform := fun row _ => transform_default row |}).
  cbn [transform]. unfold transform_default. rewrite Hparse.
  eexists. split; [reflexivity|]. cbn [event properties spread].
  split; [reflexivity|]. split; [apply lookup_insert_eq|]. split; [|split].
  - intros k v Hk Hp. rewrite lookup_insert_ne by congruence.
    apply lookup_union_Some_l. exact Hp.
  - intros Hnone. rewrite lookup_insert_ne by discriminate.
    rewrite lookup_union_r by exact Hnone.
    rewrite lookup_insert_ne by discriminate. apply lookup_insert_eq.
  - intros Hnone. rewrite lookup_insert_ne by discriminate.
    rewrite lookup_union_r by exact Hnone. apply lookup_insert_eq.
Qed.

Lemma default_transform_merges_witness :
  let p : gmap string value := {[ "a" := VNum 1 ]} in
  JSON_parse (Host := RefHost.host) (row_get Examples.click_row "properties")
    = Some (VObj p)
  /\ exists ev,
       transform_row (H := RefHost.host) "default" Examples.no_attachments
         Examples.click_row = Normal ev
       /\ event ev = row_get Examples.click_row "event"
       /\ properties ev !! "source" = Some (VStr "snowflake_import")
       /\ (forall k v, k <> "source" -> p !! k = Some v -> properties ev !! k = Some v)
       /\ (p !! "timestamp" = None ->
           properties ev !! "timestamp" = Some (row_get Examples.click_row "timestamp"))
       /\ (p !! "distinct_id" = None ->
           properties ev !! "distinct_id"
           = Some (row_get Examples.click_row "distinct_id")).
Proof.
  cbv zeta. split; [vm_compute; reflexivity|].
  apply (default_transform_merges (H := RefHost.host) Examples.no_attachments
           Examples.click_row {[ "a" := VNum 1 ]}).
  vm_compute. reflexivity.
Defined.

(** X19.  A transformation name other than the four of the table (such as
    'Predefined Fields', which the plugin's configuration offers) has no
    entry: applying it to a row throws a [TypeError]. *)
Theorem unknown_transformation_throws `{Host} name att row :
  ~ In name ["default"; "JSON Map"; "passthrough"; "Cleaned-Up Properties"] ->
  transformations name = None /\ transform_row name att row = Throws "TypeError".
Proof.
  intros Hnot. cbn [In] in Hnot.
  assert (Hnone : transformations name = None).
  { unfold transformations.
    destruct (String.eqb_spec name "default") as [->|_]; [tauto|].
    destruct (String.eqb_spec name "JSON Map") as [->|_]; [tauto|].
    destruct (String.eqb_spec name "passthrough") as [->|_]; [tauto|].
    destruct (String.eqb_spec name "Cleaned-Up Properties") as [->|_]; [tauto|].
    reflexivity. }
  split; [exact Hnone|]. unfold transform_row. rewrite Hnone. reflexivity.
Qed.

Lemma unknown_transformation_throws_witness :
  ~ In "Predefined Fields" ["default"; "JSON Map"; "passthrough"; "Cleaned-Up Properties"]
  /\ transformations (H := RefHost.host) "Predefined Fields" = None
  /\ transform_row (H := RefHost.host) "Predefined Fields" Examples.no_attachments
       Examples.click_row = Throws "TypeError".
Proof.
  assert (Hnot : ~ In "Predefined Fields"
                   ["default"; "JSON Map"; "passthrough"; "Cleaned-Up Properties"]).
  { cbn. intros [Hk|[Hk|[Hk|[Hk|[]]]]]; discriminate Hk. }
  split; [exact Hnot|].
  exact (unknown_transformation_throws (H := RefHost.host) "Predefined Fields"
           Examples.no_attachments Examples.click_row Hnot).
Defined.

Lemma jsonMap_entries_drop `{Host} m pre c v post : forall ev,
  m !! c = None ->
  jsonMap_entries (VObj m) (pre ++ (c, v) :: post) ev
  = jsonMap_entries (VObj m) (pre ++ post) ev.
Proof.
  induction pre as [|[c' v'] pre IH]; intros ev Hc.
  - cbn [app jsonMap_entries get_prop]. rewrite Hc. reflexivity.
  - cbn [app jsonMap_entries get_prop].
    destruct (negb (truthy (default VUndefined (m !! c')))); [apply IH; exact Hc|].
    destruct (is_string _ _); apply IH; exact Hc.
Qed.

(** X20.  With a mapping document that parses to an object, the 'JSON Map'
    transformation ignores every column the document does not name: the
    event is the same with or without such a column in the row.  (Stated
    for rows without a column named like an inherited property and a
    document without the target [__proto__].) *)
Theorem jsonMap_ignores_unmapped_column `{Host} att contents m pre c v post :
  rowToEventMap att = Some contents ->
  JSON_parse (VStr contents) = Some (VObj m) ->
  plain_columns (pre ++ (c, v) :: post) = true ->
  plain_targets m = true ->
  m !! c = None ->
  transform_row "JSON Map" att (pre ++ (c, v) :: post)
  = transform_row "JSON Map" att (pre ++ post).
Proof.
  intros Hatt Hparse _ _ Hc. unfold transform_row.
  change (transformations "JSON Map")
    with (Some {| author := "yakkomajuri"; transform := transform_JSON_Map |}).
  cbn [transform]. unfold transform_JSON_Map. rewrite Hatt, Hparse.
  apply jsonMap_entries_drop. exact Hc.
Qed.

Lemma jsonMap_ignores_unmapped_column_witness :
  rowToEventMap MoreExamples.mapped_attachments = Some MoreExamples.mapping_json
  /\ JSON_parse (Host := RefHost.host) (VStr MoreExamples.mapping_json)
     = Some (VObj MoreExamples.mapping)
  /\ plain_columns ([("col_a", VStr "signup"); ("col_b", VStr "u42")]
                      ++ ("col_c", VStr "ignored") :: []) = true
  /\ plain_targets (H := RefHost.host) MoreExamples.mapping = true
  /\ MoreExamples.mapping !! "col_c" = None
  /\ transform_row (H := RefHost.host) "JSON Map" MoreExamples.mapped_attachments
       ([("col_a", VStr "signup"); ("col_b", VStr "u42")]
          ++ ("col_c", VStr "ignored") :: [])
     = transform_row (H := RefHost.host) "JSON Map" MoreExamples.mapped_attachments
         ([("col_a", VStr "signup"); ("col_b", VStr "u42")] ++ []).
Proof.
  split; [reflexivity|]. split; [vm_compute; reflexivity|].
  split; [vm_compute; reflexivity|]. split; [vm_compute; reflexivity|].
  split; [reflexivity|].
  apply (jsonMap_ignores_unmapped_column (H := RefHost.host)
           MoreExamples.mapped_attachments MoreExamples.mapping_json MoreExamples.mapping);
    [reflexivity | vm_compute; reflexivity | vm_compute; reflexivity
    | vm_compute; reflexivity | reflexivity].
Defined.

Lemma jsonMap_entries_origin `{Host} (m : gmap string value) (row : Row) :
  forall entries ev,
  (forall e, In e entries -> In e row) ->
  (forall k x, properties ev !! k = Some x ->
     exists c t, In (c, x) row /\ m !! c = Some t /\ truthy t = true
                 /\ k = ToPropertyKey t) ->
  (event ev = VStr "" \/ exists c, In (c, event ev) row /\ m !! c = Some (VStr "event")) ->
  exists ev',
    jsonMap_entries (VObj m) entries ev = Normal ev'
    /\ (forall k x, properties ev' !! k = Some x ->
          exists c t, In (c, x) row /\ m !! c = Some t /\ truthy t = true
                      /\ k = ToPropertyKey t)
    /\ (event ev' = VStr ""
        \/ exists c, In (c, event ev') row /\ m !! c = Some (VStr "event")).
Proof.
  induction entries as [|[c v] rest IH]; intros ev Hin Hprops Hevent.
  - exists ev. split; [reflexivity|]. split; assumption.
  - cbn [jsonMap_entries get_prop].
    assert (Hrest : forall e, In e rest -> In e row) by (intros e He; apply Hin; right; exact He).
    assert (Hcv : In (c, v) row) by (apply Hin; left; reflexivity).
    destruct (m !! c) as [t|] eqn:Hc; cbn [from_option id];
      [|apply IH; assumption].
    destruct (truthy t) eqn:Ht; cbn [negb]; [|apply IH; assumption].
    destruct (is_string t "event") eqn:Hs.
    + apply IH; cbn [event properties]; [exact Hrest | exact Hprops |].
      right. exists c. split; [exact Hcv|].
      destruct t; try discriminate. cbn in Hs. apply String.eqb_eq in Hs. subst.
      exact Hc.
    + apply IH; cbn [event properties]; [exact Hrest | | exact Hevent].
      intros k x Hk. destruct (decide (k = ToPropertyKey t)) as [->|Hne].
      * rewrite lookup_insert_eq in Hk. injection Hk as <-.
        exists c, t. auto.
      * rewrite lookup_insert_ne in Hk by congruence. apply Hprops. exact Hk.
Qed.

(** X21.  With a mapping document that parses to an object, the 'JSON Map'
    transformation returns an event for every row, and nothing in it is
    made up: each property holds the value of a column of the row, under
    the key the document gives that column, and the event name is either
    the empty string or the value of a column the document maps to
    [event].  (Stated for rows without a column named like an inherited
    property and a document without the target [__proto__].) *)
Theorem jsonMap_event_comes_from_mapped_columns `{Host} att contents m row :
  rowToEventMap att = Some contents ->
  JSON_parse (VStr contents) = Some (VObj m) ->
  plain_columns row = true ->
  plain_targets m = true ->
  exists ev,
    transform_row "JSON Map" att row = Normal ev
    /\ (forall k x, properties ev !! k = Some x ->
          exists c t, In (c, x) row /\ m !! c = Some t /\ truthy t = true
                      /\ k = ToPropertyKey t)
    /\ (event ev = VStr ""
        \/ exists c, In (c, event ev) row /\ m !! c = Some (VStr "event")).
Proof.
  intros Hatt Hparse _ _. unfold transform_row.
  change (transformations "JSON Map")
    with (Some {| author := "yakkomajuri"; transform := transform_JSON_Map |}).
  cbn [transform]. unfold transform_JSON_Map. rewrite Hatt, Hparse.
  apply jsonMap_entries_origin.
  - auto.
  - cbn [properties]. intros k x Hk. rewrite lookup_empty in Hk. discriminate.
  - left. reflexivity.
Qed.

Lemma jsonMap_event_comes_from_mapped_columns_witness :
  rowToEventMap MoreExamples.mapped_attachments = Some MoreExamples.mapping_json
  /\ JSON_parse (Host := RefHost.host) (VStr MoreExamples.mapping_json)
     = Some (VObj MoreExamples.mapping)
  /\ plain_columns MoreExamples.signup_row = true
  /\ plain_targets (H := RefHost.host) MoreExamples.mapping = true
  /\ exists ev,
       transform_row (H := RefHost.host) "JSON Map" MoreExamples.mapped_attachments
         MoreExamples.signup_row = Normal ev
       /\ (forall k x, properties ev !! k = Some x ->
             exists c t, In (c, x) MoreExamples.signup_row
                         /\ MoreExamples.mapping !! c = Some t /\ truthy t = true
                         /\ k = ToPropertyKey (Host := RefHost.host) t)
       /\ (event ev = VStr ""
           \/ exists c, In (c, event ev) MoreExamples.signup_row
                        /\ MoreExamples.mapping !! c = Some (VStr "event")).
Proof.
  split; [reflexivity|]. split; [vm_compute; reflexivity|].
  split; [vm_compute; reflexivity|]. split; [vm_compute; reflexivity|].
  apply (jsonMap_event_comes_from_mapped_columns (H := RefHost.host)
           MoreExamples.mapped_attachments MoreExamples.mapping_json);
    [reflexivity | vm_compute; reflexivity | vm_compute; reflexivity
    | vm_compute; reflexivity].
Defined.

(** The mapping scenario, run: [col_a] names the event, [col_b] becomes the
    property [distinct_id], [col_c] is dropped. *)
Example jsonMap_signup :
  transform_row (H := RefHost.host) "JSON Map" MoreExamples.mapped_attachments
    MoreExamples.signup_row
  = Normal {| event := VStr "signup"; properties := {[ "distinct_id" := VStr "u42" ]} |}.
Proof. vm_compute. reflexivity. Qed.

(** ** Dates and title case *)

Lemma norm_inject_Z z : DateFormat.norm (inject_Z z) = Z.abs z.
Proof. unfold DateFormat.norm. cbn. apply Z.div_1_r. Qed.

Lemma norm_quotient z : DateFormat.norm (inject_Z z / 60) = (Z.abs z / 60)%Z.
Proof.
  unfold DateFormat.norm. cbn. rewrite Z.mul_1_r. reflexivity.
Qed.

Lemma pad_two_digits q :
  (DateFormat.norm q < 100)%Z -> DateFormat.pad q = DateFormat.two_digits (DateFormat.norm q).
Proof.
  intros Hlt. unfold DateFormat.pad.
  assert (Hge : (0 <= DateFormat.norm q)%Z).
  { unfold DateFormat.norm. destruct q as [n d]. cbn. apply Z.div_pos; lia. }
  generalize dependent (DateFormat.norm q). intros z Hlt Hge.
  assert (Hall : forallb (fun n =>
            String.eqb ((if (Z.of_nat n <? 10)%Z then "0" else "") +:+ pretty (Z.of_nat n))
                       (DateFormat.two_digits (Z.of_nat n))) (seq 0 100) = true)
    by (vm_compute; reflexivity).
  rewrite forallb_forall in Hall.
  specialize (Hall (Z.to_nat z)). rewrite Z2Nat.id in Hall by exact Hge.
  apply String.eqb_eq, Hall, in_seq. lia.
Qed.

Lemma year_four_digits y :
  (1000 <= y <= 9999)%Z -> String.length (pretty y) = 4.
Proof.
  intros Hy.
  assert (Hall : forallb (fun n => String.length (pretty (1000 + Z.of_nat n)%Z) =? 4)
                         (seq 0 (90 * 100)) = true)
    by (vm_compute; reflexivity).
  rewrite forallb_forall in Hall.
  specialize (Hall (Z.to_nat (y - 1000))). rewrite Z2Nat.id in Hall by lia.
  replace (1000 + (y - 1000))%Z with y in Hall by lia.
  apply Nat.eqb_eq, Hall, in_seq. lia.
Qed.

(** The formatted date written with integer arithmetic only. *)
Lemma formatDateToIsoString_explicit date :
  DateFormat.in_range date ->
  DateFormat.formatDateToIsoString date =
  pretty (DateFormat.getFullYear date)
  +:+ "-" +:+ DateFormat.two_digits (DateFormat.getMonth date + 1)
  +:+ "-" +:+ DateFormat.two_digits (DateFormat.getDate date)
  +:+ "T" +:+ DateFormat.two_digits (DateFormat.getHours date)
  +:+ ":" +:+ DateFormat.two_digits (DateFormat.getMinutes date)
  +:+ ":" +:+ DateFormat.two_digits (DateFormat.getSeconds date)
  +:+ (if (DateFormat.getTimezoneOffset date <=? 0)%Z then "+" else "-")
  +:+ DateFormat.two_digits (Z.abs (DateFormat.getTimezoneOffset date) / 60)
  +:+ ":" +:+ DateFormat.two_digits (Z.abs (DateFormat.getTimezoneOffset date) mod 60).
Proof.
  intros (Hy & Hmo & Hd & Hh & Hmi & Hs & Hoff).
  unfold DateFormat.formatDateToIsoString. cbv zeta.
  rewrite !pad_two_digits;
    rewrite ?norm_inject_Z, ?norm_quotient, ?Z.abs_opp;
    try (apply Z.div_lt_upper_bound; lia); try lia.
  - replace (Z.abs (DateFormat.getMonth date + 1)) with (DateFormat.getMonth date + 1)%Z by lia.
    replace (Z.abs (DateFormat.getDate date)) with (DateFormat.getDate date) by lia.
    replace (Z.abs (DateFormat.getHours date)) with (DateFormat.getHours date) by lia.
    replace (Z.abs (DateFormat.getMinutes date)) with (DateFormat.getMinutes date) by lia.
    replace (Z.abs (DateFormat.getSeconds date)) with (DateFormat.getSeconds date) by lia.
    replace (Z.abs (Z.rem (- DateFormat.getTimezoneOffset date) 60))
      with (Z.abs (DateFormat.getTimezoneOffset date) mod 60)%Z.
    + replace (0 <=? - DateFormat.getTimezoneOffset date)%Z
        with (DateFormat.getTimezoneOffset date <=? 0)%Z; [reflexivity|].
      destruct (Z.leb_spec (DateFormat.getTimezoneOffset date) 0);
        destruct (Z.leb_spec 0 (- DateFormat.getTimezoneOffset date)); lia || reflexivity.
    + rewrite <- (Z.rem_abs _ 60) by lia. rewrite Z.abs_opp. change (Z.abs 60) with 60%Z.
      symmetry. apply Z.rem_mod_nonneg; lia.
  - pose proof (Z.rem_bound_abs (- DateFormat.getTimezoneOffset date) 60).
    change (Z.abs 60) with 60%Z in *. lia.
Qed.

Lemma string_app_assoc (s1 s2 s3 : string) : (s1 +:+ s2) +:+ s3 = s1 +:+ (s2 +:+ s3).
Proof.
  induction s1 as [|a s1 IH]; [reflexivity|].
  change (String a ((s1 +:+ s2) +:+ s3) = String a (s1 +:+ (s2 +:+ s3))).
  rewrite IH. reflexivity.
Qed.

Lemma string_app_length (s1 s2 : string) :
  String.length (s1 +:+ s2) = String.length s1 + String.length s2.
Proof.
  induction s1 as [|a s1 IH]; [reflexivity|].
  change (S (String.length (s1 +:+ s2)) = S (String.length s1 + String.length s2)).
  rewrite IH. reflexivity.
Qed.

(** X22.  For a date of the years 1000 to 9999 the formatted text has the
    25 characters of [YYYY-MM-DDTHH:mm:ss+HH:mm]: the separators stand at
    their fixed places and the sign is [+] exactly when
    [getTimezoneOffset()] is not positive. *)
Theorem formatDateToIsoString_shape date :
  DateFormat.in_range date ->
  let text := DateFormat.formatDateToIsoString date in
  String.length text = 25
  /\ String.get 4 text = Some "-"%char /\ String.get 7 text = Some "-"%char
  /\ String.get 10 text = Some "T"%char
  /\ String.get 13 text = Some ":"%char /\ String.get 16 text = Some ":"%char
  /\ String.get 19 text
     = Some (if (DateFormat.getTimezoneOffset date <=? 0)%Z then "+" else "-")%char
  /\ String.get 22 text = Some ":"%char.
Proof.
  intros Hrange text. subst text. rewrite (formatDateToIsoString_explicit date Hrange).
  destruct Hrange as (Hy & _). pose proof (year_four_digits _ Hy) as Hlen.
  destruct (pretty (DateFormat.getFullYear date)) as [|y1 [|y2 [|y3 [|y4 [|y5 rest]]]]];
    try discriminate Hlen.
  unfold DateFormat.two_digits.
  destruct (DateFormat.getTimezoneOffset date <=? 0)%Z; cbn; repeat split.
Qed.

Lemma formatDateToIsoString_shape_witness :
  let date := {| DateFormat.getTimezoneOffset := -330; DateFormat.getFullYear := 2023;
                 DateFormat.getMonth := 0; DateFormat.getDate := 5;
                 DateFormat.getHours := 13; DateFormat.getMinutes := 7;
                 DateFormat.getSeconds := 59 |} in
  let text := DateFormat.formatDateToIsoString date in
  DateFormat.in_range date
  /\ text = "2023-01-05T13:07:59+05:30"
  /\ String.length text = 25
  /\ String.get 4 text = Some "-"%char /\ String.get 7 text = Some "-"%char
  /\ String.get 10 text = Some "T"%char
  /\ String.get 13 text = Some ":"%char /\ String.get 16 text = Some ":"%char
  /\ String.get 19 text
     = Some (if (DateFormat.getTimezoneOffset date <=? 0)%Z then "+" else "-")%char
  /\ String.get 22 text = Some ":"%char.
Proof.
  cbv zeta.
  assert (Hrange : DateFormat.in_range
            {| DateFormat.getTimezoneOffset := -330; DateFormat.getFullYear := 2023;
               DateFormat.getMonth := 0; DateFormat.getDate := 5;
               DateFormat.getHours := 13; DateFormat.getMinutes := 7;
               DateFormat.getSeconds := 59 |})
    by (unfold DateFormat.in_range; cbn; lia).
  split; [exact Hrange|]. split; [vm_compute; reflexivity|].
  exact (formatDateToIsoString_shape _ Hrange).
Defined.

(** X23.  The zone printed after the local time is the sign, then the
    whole hours and the remaining minutes of the absolute offset, two
    digits each: hours * 60 + minutes is the absolute value of
    [getTimezoneOffset()], also for zones that are not whole hours. *)
Theorem formatDateToIsoString_zone date :
  DateFormat.in_range date ->
  exists local hours minutes,
    String.length local = 19
    /\ (0 <= minutes < 60)%Z
    /\ (hours * 60 + minutes = Z.abs (DateFormat.getTimezoneOffset date))%Z
    /\ DateFormat.formatDateToIsoString date =
       local +:+ (if (DateFormat.getTimezoneOffset date <=? 0)%Z then "+" else "-")
             +:+ DateFormat.two_digits hours +:+ ":" +:+ DateFormat.two_digits minutes.
Proof.
  intros Hrange. rewrite (formatDateToIsoString_explicit date Hrange).
  destruct Hrange as (Hy & _).
  exists (pretty (DateFormat.getFullYear date)
          +:+ "-" +:+ DateFormat.two_digits (DateFormat.getMonth date + 1)
          +:+ "-" +:+ DateFormat.two_digits (DateFormat.getDate date)
          +:+ "T" +:+ DateFormat.two_digits (DateFormat.getHours date)
          +:+ ":" +:+ DateFormat.two_digits (DateFormat.getMinutes date)
          +:+ ":" +:+ DateFormat.two_digits (DateFormat.getSeconds date)),
         (Z.abs (DateFormat.getTimezoneOffset date) / 60)%Z,
         (Z.abs (DateFormat.getTimezoneOffset date) mod 60)%Z.
  split; [|split; [|split]].
  - rewrite !string_app_length, (year_four_digits _ Hy). reflexivity.
  - apply Z.mod_pos_bound. lia.
  - pose proof (Z.div_mod (Z.abs (DateFormat.getTimezoneOffset date)) 60). lia.
  - rewrite !string_app_assoc. reflexivity.
Qed.

Lemma formatDateToIsoString_zone_witness :
  let date := {| DateFormat.getTimezoneOffset := 210; DateFormat.getFullYear := 2023;
                 DateFormat.getMonth := 11; DateFormat.getDate := 31;
                 DateFormat.getHours := 0; DateFormat.getMinutes := 0;
                 DateFormat.getSeconds := 0 |} in
  DateFormat.in_range date
  /\ DateFormat.formatDateToIsoString date = "2023-12-31T00:00:00-03:30"
  /\ exists local hours minutes,
       String.length local = 19
       /\ (0 <= minutes < 60)%Z
       /\ (hours * 60 + minutes = Z.abs (DateFormat.getTimezoneOffset date))%Z
       /\ DateFormat.formatDateToIsoString date =
          local +:+ (if (DateFormat.getTimezoneOffset date <=? 0)%Z then "+" else "-")
                +:+ DateFormat.two_digits hours +:+ ":" +:+ DateFormat.two_digits minutes.
Proof.
  cbv zeta.
  assert (Hrange : DateFormat.in_range
            {| DateFormat.getTimezoneOffset := 210; DateFormat.getFullYear := 2023;
               DateFormat.getMonth := 11; DateFormat.getDate := 31;
               DateFormat.getHours := 0; DateFormat.getMinutes := 0;
               DateFormat.getSeconds := 0 |})
    by (unfold DateFormat.in_range; cbn; lia).
  split; [exact Hrange|]. split; [vm_compute; reflexivity|].
  exact (formatDateToIsoString_zone _ Hrange).
Defined.

Lemma toUpperCase_facts a :
  is_word_char (toUpperCase a) = is_word_char a
  /\ toUpperCase (toUpperCase a) = toUpperCase a
  /\ ((nat_of_ascii a <? 128) = true -> (nat_of_ascii (toUpperCase a) <? 128) = true).
Proof. destruct a as [[] [] [] [] [] [] [] []]; vm_compute; auto. Qed.

Lemma toLowerCase_facts a :
  is_space (toLowerCase a) = is_space a
  /\ toLowerCase (toLowerCase a) = toLowerCase a
  /\ ((nat_of_ascii a <? 128) = true -> (nat_of_ascii (toLowerCase a) <? 128) = true).
Proof. destruct a as [[] [] [] [] [] [] [] []]; vm_compute; auto. Qed.

Lemma titleCase_from_cons inside a rest :
  titleCase_from inside (String a rest) =
  if inside then
    if is_space a then String a (titleCase_from false rest)
    else String (toLowerCase a) (titleCase_from true rest)
  else if is_word_char a then String (toUpperCase a) (titleCase_from true rest)
  else String a (titleCase_from false rest).
Proof. reflexivity. Qed.

Lemma titleCase_from_idempotent str : forall inside,
  titleCase_from inside (titleCase_from inside str) = titleCase_from inside str.
Proof.
  induction str as [|a rest IH]; intros inside; [reflexivity|].
  destruct (toUpperCase_facts a) as (Hw & Hu & _).
  destruct (toLowerCase_facts a) as (Hs & Hl & _).
  rewrite (titleCase_from_cons inside a rest). destruct inside.
  - destruct (is_space a) eqn:Ha; rewrite titleCase_from_cons.
    + rewrite Ha, IH. reflexivity.
    + rewrite Hs, Hl, IH. reflexivity.
  - destruct (is_word_char a) eqn:Ha; rewrite titleCase_from_cons.
    + rewrite Hw, Hu, IH. reflexivity.
    + rewrite Ha, IH. reflexivity.
Qed.

Lemma titleCase_from_length str : forall inside,
  String.length (titleCase_from inside str) = String.length str.
Proof.
  induction str as [|a rest IH]; intros inside; [reflexivity|].
  rewrite titleCase_from_cons. destruct inside.
  - destruct (is_space a); cbn [String.length]; rewrite IH; reflexivity.
  - destruct (is_word_char a); cbn [String.length]; rewrite IH; reflexivity.
Qed.

Lemma titleCase_from_ascii str : forall inside,
  is_ascii str = true -> is_ascii (titleCase_from inside str) = true.
Proof.
  induction str as [|a rest IH]; intros inside Hascii; [reflexivity|].
  cbn [is_ascii] in Hascii. apply andb_true_iff in Hascii as [Ha Hrest].
  destruct (toUpperCase_facts a) as (_ & _ & Hu).
  destruct (toLowerCase_facts a) as (_ & _ & Hl).
  rewrite titleCase_from_cons. destruct inside.
  - destruct (is_space a); cbn [is_ascii]; rewrite ?Ha, ?(Hl Ha), IH by exact Hrest;
      reflexivity.
  - destruct (is_word_char a); cbn [is_ascii]; rewrite ?Ha, ?(Hu Ha), IH by exact Hrest;
      reflexivity.
Qed.

(** X24.  On ASCII text, [toTitleCase] keeps the length of the text and
    its result is ASCII text that [toTitleCase] leaves unchanged: title
    casing twice is title casing once. *)
Theorem toTitleCase_idempotent str :
  is_ascii str = true ->
  toTitleCase (toTitleCase str) = toTitleCase str
  /\ String.length (toTitleCase str) = String.length str
  /\ is_ascii (toTitleCase str) = true.
Proof.
  intros Hascii. unfold toTitleCase. split; [apply titleCase_from_idempotent|].
  split; [apply titleCase_from_length | apply titleCase_from_ascii; exact Hascii].
Qed.

Lemma toTitleCase_idempotent_witness :
  is_ascii "USER_ID created at" = true
  /\ toTitleCase "USER_ID created at" = "User_id Created At"
  /\ toTitleCase (toTitleCase "USER_ID created at") = toTitleCase "USER_ID created at"
  /\ String.length (toTitleCase "USER_ID created at") = String.length "USER_ID created at"
  /\ is_ascii (toTitleCase "USER_ID created at") = true.
Proof.
  split; [reflexivity|]. split; [vm_compute; reflexivity|].
  apply (toTitleCase_idempotent "USER_ID created at"). reflexivity.
Defined.

(** ** What a run leaves behind *)



(** X26.  Whatever its payload and however it ends, a run of the job never
    writes the durable storage and never touches the pool; it sends at most
    one statement, and it leaves the counter as it was or one higher.  The
    progress of the import is made durable by teardown only. *)
Theorem run_frame `{Host} p meta w :
  let run := importAndIngestEvents p meta w in
  storage (snd run) = storage w
  /\ poolCleared (snd run) = poolCleared w
  /\ (sent (snd run) = sent w
      \/ sent (snd run) = sent w ++ [batch_query meta (job_offset p meta w)])
  /\ (cache (snd run) = cache w
      \/ cache (snd run) = <[REDIS_OFFSET_KEY := (counter w + 1)%Q]> (cache w)).
Proof.
  cbv zeta. rewrite importAndIngestEvents_paths. cbv zeta.
  destruct (abandons p); [cbn; auto|].
  destruct (historical_done _ _); [cbn; auto|].
  assert (Hpool : forall off, poolCleared (after_fetch p meta w off) = poolCleared w)
    by (intros off; unfold after_fetch; destruct (query_failed _); reflexivity).
  destruct (transform_rows _ _ _) as [evs|e]; cbn [snd].
  - rewrite storage_after_ingest, storage_after_fetch, sent_after_ingest, sent_after_fetch,
      cache_after_ingest.
    unfold counter. rewrite cache_after_fetch. split; [reflexivity|]. split; [|auto].
    unfold after_ingest. cbn [poolCleared with_scheduled with_cache with_console].
    unfold capture_all.
    generalize (after_fetch p meta w (job_offset p meta w)) (Hpool (job_offset p meta w)).
    induction evs as [|e rest IH]; intros w0 Hw0; [exact Hw0|].
    cbn [foldl]. apply IH. exact Hw0.
  - rewrite storage_after_fetch, sent_after_fetch, cache_after_fetch, Hpool. auto.
Qed.
